(** * Product-scoped messaging of the marketplace client

    A shallow embedding of the messaging code of the repository:
    - the message hooks [useConversations] and [useProductMessages]
      (hooks/useMessages.ts, the last part of src/contexts/AuthContext.tsx);
    - [messageService] of the database service module
      (services/database.ts, src/unnamed/part_003): the conversation list,
      the send and read-marking calls, the unread count and the two realtime
      subscriptions;
    - [isSupabaseConfigured] of lib/supabase.ts (same file);
    - [handleContactSeller] of the product page (src/unnamed/part_007).

    The stored procedures behind the calls ([send_product_message],
    [mark_product_messages_as_read]) belong to the database migrations; the
    module [Store] gives them the contract of the specification.

    JavaScript values are modelled as follows.  A string is a
    [String.string] whose characters are the code units below U+0100.
    A [Map<string, V>] is an association list in insertion order.  An
    [async] function that may throw is a function into [Outcome].  React
    state ([useState]) is a record that every operation takes and returns;
    the state of the backend is passed in the same way. *)

From Stdlib Require Import List String Ascii ZArith Bool Lia.
From Stdlib Require Import Sorting.Sorted Sorting.Permutation.
Import ListNotations.

Local Open Scope string_scope.
Local Open Scope Z_scope.

(** ** JavaScript primitives used by the hooks *)

Module Js.

(** White space of [String.prototype.trim] among the code units below
    U+0100: TAB, LF, VT, FF, CR, SPACE and NBSP. *)
Definition isWhiteSpace (c : ascii) : bool :=
  let n := nat_of_ascii c in
  (Nat.eqb n 9 || Nat.eqb n 10 || Nat.eqb n 11 || Nat.eqb n 12
   || Nat.eqb n 13 || Nat.eqb n 32 || Nat.eqb n 160)%bool.

Fixpoint trimStart (s : string) : string :=
  match s with
  | EmptyString => EmptyString
  | String c s' => if isWhiteSpace c then trimStart s' else s
  end.

Fixpoint trimEnd (s : string) : string :=
  match s with
  | EmptyString => EmptyString
  | String c s' =>
      match trimEnd s' with
      | EmptyString => if isWhiteSpace c then EmptyString else String c EmptyString
      | t => String c t
      end
  end.

(** [s.trim()] *)
Definition trim (s : string) : string := trimEnd (trimStart s).

(** Truthiness of a string: [!s] holds exactly for the empty string. *)
Definition truthy (s : string) : bool :=
  match s with EmptyString => false | _ => true end.

(** [Map<string, V>]: entries in insertion order, keys pairwise distinct. *)
Section MapOps.
Variable V : Type.

Definition Map := list (string * V).

Definition empty : Map := [].

Fixpoint has (k : string) (m : Map) : bool :=
  match m with
  | [] => false
  | (k', _) :: m' => if String.eqb k k' then true else has k m'
  end.

Fixpoint get (k : string) (m : Map) : option V :=
  match m with
  | [] => None
  | (k', v) :: m' => if String.eqb k k' then Some v else get k m'
  end.

(** [m.set(k, v)]: an existing key keeps its position and takes the new
    value; a new key is appended. *)
Fixpoint set (k : string) (v : V) (m : Map) : Map :=
  match m with
  | [] => [(k, v)]
  | (k', v') :: m' =>
      if String.eqb k k' then (k', v) :: m' else (k', v') :: set k v m'
  end.

(** [Array.from(m.values())] *)
Definition values (m : Map) : list V := map snd m.

Definition keys (m : Map) : list string := map fst m.

(** Every entry stands under the key computed from its value. *)
Definition keyed (key : V -> string) (m : Map) : Prop :=
  Forall (fun kv => fst kv = key (snd kv)) m.
End MapOps.

Arguments empty {V}.
Arguments has {V} k m.
Arguments get {V} k m.
Arguments set {V} k v m.
Arguments values {V} m.
Arguments keys {V} m.
Arguments keyed {V} key m.

(** [Array.prototype.sort(cmp)] is stable; with a comparator that is a
    total preorder its result is the stable insertion sort below.  [x]
    stood before every element of [l] in the array, so it is put before
    the first element that does not come strictly before it. *)
Section Sort.
Variable A : Type.
Variable cmp : A -> A -> Z.

Fixpoint insert (x : A) (l : list A) : list A :=
  match l with
  | [] => [x]
  | y :: l' => if cmp x y <=? 0 then x :: y :: l' else y :: insert x l'
  end.

Fixpoint sort (l : list A) : list A :=
  match l with
  | [] => []
  | x :: l' => insert x (sort l')
  end.
End Sort.

Arguments insert {A} cmp x l.
Arguments sort {A} cmp l.

(** [arr.some(p)] *)
Definition some {A : Type} (p : A -> bool) (l : list A) : bool := existsb p l.

(** A settled promise of an [async] function: resolved with a value or
    rejected with the thrown error. *)
Inductive Outcome (E A : Type) : Type :=
  | Resolved (a : A)
  | Rejected (e : E).
Arguments Resolved {E A} a.
Arguments Rejected {E A} e.

End Js.

(** ** Messages of a thread: [ProductMessage] of useMessages.ts *)

Module ProductMessage.
Record t : Type := mk {
    id : string;
    product_id : string;
    sender_id : string;
    recipient_id : string;
    content : string;
    read_at : option string;
    created_at : string;
    sender_name : string;
    recipient_name : string
  }.
End ProductMessage.


(** ** Errors thrown through the service and the hooks *)

Module Error.
(** [NotConfigured] is the [Error] of [checkSupabaseConfig]; [InvalidSender]
    and [EmptyContent] are the validation errors of the store; [Backend] is
    any other error object returned by the backend, with its [message]. *)
Inductive t : Type :=
| NotConfigured
| InvalidSender
| EmptyContent
| Backend (message : string).

(** The line feed of the text of [checkSupabaseConfig]. *)
Definition lineFeed : string := String (ascii_of_nat 10) EmptyString.

Definition message (e : t) : string :=
  match e with
  | NotConfigured =>
      "Supabase is not properly configured. Please check your environment variables:"
      ++ lineFeed ++ "- VITE_SUPABASE_URL"
      ++ lineFeed ++ "- VITE_SUPABASE_ANON_KEY"
      ++ lineFeed ++ lineFeed
      ++ "You can find these values in your Supabase project dashboard under Project Settings -> API"
  | InvalidSender => "InvalidSender"
  | EmptyContent => "EmptyContent"
  | Backend m => m
  end.
End Error.

Abbreviation Outcome := (Js.Outcome Error.t).
Abbreviation Resolved := Js.Resolved.
Abbreviation Rejected := Js.Rejected.

(** [err.message || fallback] *)
Definition messageOr (e : Error.t) (fallback : string) : string :=
  if Js.truthy (Error.message e) then Error.message e else fallback.

(** ** lib/supabase.ts: client configuration *)

Module Supabase.
(** [import.meta.env]: a variable is a string or undefined. *)
Record Env : Type := mkEnv {
  VITE_SUPABASE_URL : option string;
  VITE_SUPABASE_ANON_KEY : option string
}.

Definition truthy (v : option string) : bool :=
  match v with
  | Some s => Js.truthy s
  | None => false
  end.

Definition startsWith (v : option string) (p : string) : bool :=
  match v with
  | Some s => String.prefix p s
  | None => false
  end.

(** [!!(supabaseUrl && supabaseAnonKey && supabaseUrl.startsWith('https://'))] *)
Definition isSupabaseConfigured (env : Env) : bool :=
  (truthy (VITE_SUPABASE_URL env) && truthy (VITE_SUPABASE_ANON_KEY env)
   && startsWith (VITE_SUPABASE_URL env) "https://")%bool.

(** [checkSupabaseConfig] of services/database.ts throws unless configured. *)
Definition checkSupabaseConfig (env : Env) : Outcome unit :=
  if isSupabaseConfigured env then Resolved tt else Rejected Error.NotConfigured.
End Supabase.

(** ** The message store behind the [send_product_message] procedure *)

Module Store.
(** A row of the [messages] table (types/database.ts). *)
Record Message : Type := mkMessage {
  id : string;
  product_id : string;
  sender_id : string;
  recipient_id : string;
  content : string;
  read_at : option string;
  created_at : string
}.

(** The durable log of messages. *)
Definition t : Type := list Message.

(** Modelled from the spec: the stored procedure [send_product_message] is
    defined by the database migrations, which are not among the sources;
    only its declaration (types/database.ts) and its caller
    ([sendProductMessage]) are.  The spec gives its contract as
    [append(sender, recipient, product_id, content)]: it fails with
    [InvalidSender] if [sender == recipient], fails with [EmptyContent] if the
    content is blank after trimming, and otherwise persists and returns the
    new message with a server-assigned id and timestamp.  [assigned] is that
    server-assigned pair. *)
Definition append (assigned : string * string)
    (sender recipient product content : string) (log : t)
  : Outcome Message * t :=
  if String.eqb sender recipient then (Rejected Error.InvalidSender, log)
  else if negb (Js.truthy (Js.trim content)) then (Rejected Error.EmptyContent, log)
  else
    let m := {| id := fst assigned;
                product_id := product;
                sender_id := sender;
                recipient_id := recipient;
                content := Js.trim content;
                read_at := None;
                created_at := snd assigned |} in
    (Resolved m, (log ++ [m])%list).

(** Modelled from the spec: the procedure takes the sender from the session
    (the spec's session context supplies the authenticated user id), so for
    the session of [user] the call
    [rpc('send_product_message', {p_product_id, p_recipient_id, p_content})]
    is [append] with [user] as the sender. *)
Definition send_product_message (assign : t -> string * string) (user : string)
    (p_product_id p_recipient_id p_content : string) (log : t)
  : Outcome Message * t :=
  append (assign log) user p_recipient_id p_product_id p_content log.

(** A message of [other] to [user] about [product] that [user] has not
    read. *)
Definition unreadFrom (user other product : string) (m : Message) : bool :=
  (String.eqb (recipient_id m) user && String.eqb (sender_id m) other
   && String.eqb (product_id m) product
   && match read_at m with None => true | Some _ => false end)%bool.

Definition setRead (now : string) (m : Message) : Message :=
  {| id := id m;
     product_id := product_id m;
     sender_id := sender_id m;
     recipient_id := recipient_id m;
     content := content m;
     read_at := Some now;
     created_at := created_at m |}.

(** Modelled from the spec: the stored procedure
    [mark_product_messages_as_read] is defined by the database migrations,
    which are not among the sources.  The spec gives its contract as
    [markRead(user_id, other_user_id, product_id) -> count updated] over the
    read state of a message, [Unread] ([read_at = null]) to [Read]
    ([read_at = timestamp]), fired only when the viewing user is the
    recipient: every unread message of the other user to the user about the
    product gets [read_at = now]; the result is the number of rows updated. *)
Definition markRead (now : string) (user other product : string) (log : t) : nat * t :=
  (List.length (List.filter (unreadFrom user other product) log),
   map (fun m => if unreadFrom user other product m then setRead now m else m) log).

(** Modelled from the spec: [countUnread(user_id)], the number of messages
    with [recipient_id = user_id] and [read_at IS NULL], over all products
    and counterparties. *)
Definition countUnread (user : string) (log : t) : nat :=
  List.length
    (List.filter (fun m => (String.eqb (recipient_id m) user
                            && match read_at m with None => true | Some _ => false end)%bool)
                 log).

(** Modelled from the spec: the call
    [rpc('mark_product_messages_as_read', {p_product_id, p_sender_id})] in
    the session of [user] is [markRead] at the time [clock] of the server; it
    returns no data and no error. *)
Definition mark_product_messages_as_read (clock : t -> string) (user : string)
    (p_product_id p_sender_id : string) (log : t) : Outcome unit * t :=
  (Resolved tt, snd (markRead (clock log) user p_sender_id p_product_id log)).
End Store.

(** ** services/database.ts: [messageService], the send path *)

Module MessageService.
Section Send.
(** [S] is the state of the backend and [R] the data a successful call
    returns; [rpc_send] is [supabase.rpc('send_product_message', args)], with
    a returned [error] as [Rejected]. *)
Variables S R : Type.
Variable rpc_send : string -> string -> string -> S -> Outcome R * S.

(** [async sendProductMessage(productId, recipientId, content)]: the [catch]
    logs and rethrows, so an error of the check or of the call is the
    rejection of the promise. *)
Definition sendProductMessage (env : Supabase.Env)
    (productId recipientId content : string) (st : S) : Outcome R * S :=
  match Supabase.checkSupabaseConfig env with
  | Rejected e => (Rejected e, st)
  | Resolved _ =>
      match rpc_send productId recipientId (Js.trim content) st with
      | (Rejected error, st') => (Rejected error, st')
      | (Resolved data, st') => (Resolved data, st')
      end
  end.
End Send.

Arguments sendProductMessage {S R} rpc_send env productId recipientId content st.

Section Mark.
(** [rpc_mark] is [supabase.rpc('mark_product_messages_as_read', args)]. *)
Variable S : Type.
Variable rpc_mark : string -> string -> S -> Outcome unit * S.

(** [async markMessagesAsRead(productId, senderId)] *)
Definition markMessagesAsRead (env : Supabase.Env) (productId senderId : string) (st : S)
  : Outcome unit * S :=
  match Supabase.checkSupabaseConfig env with
  | Rejected e => (Rejected e, st)
  | Resolved _ =>
      match rpc_mark productId senderId st with
      | (Rejected error, st') => (Rejected error, st')
      | (Resolved _, st') => (Resolved tt, st')
      end
  end.
End Mark.

Arguments markMessagesAsRead {S} rpc_mark env productId senderId st.
End MessageService.

(** ** Conversations of the list view: [ProductConversation] of useMessages.ts *)

Module Participant.
Record t : Type := mk {
  id : string;
  name : string;
  verified : bool
}.
End Participant.

Module LastMessage.
Record t : Type := mk {
  content : string;
  created_at : string
}.
End LastMessage.

Module ProductConversation.
Record t : Type := mk {
  id : string;
  product_id : string;
  product_title : string;
  other_participant : Participant.t;
  last_message : option LastMessage.t;
  last_message_at : string;
  has_unread : bool;
  is_buyer : bool
}.
End ProductConversation.

(** A row returned by the [get_user_conversations] procedure
    (types/database.ts). *)
Module ConversationRow.
Record t : Type := mk {
  product_id : string;
  product_title : string;
  other_user_id : string;
  other_user_name : string;
  other_user_verified : bool;
  last_message_content : string;
  last_message_at : string;
  unread_count : Z;
  is_buyer : bool
}.
End ConversationRow.

(** ** services/database.ts: [messageService], the read path *)

Module MessageServiceRead.

(** The object built for one row by the [map] of [getUserConversations]. *)
Definition formatConversation (conv : ConversationRow.t) : ProductConversation.t :=
  {| ProductConversation.id :=
       ConversationRow.product_id conv ++ "-" ++ ConversationRow.other_user_id conv;
     ProductConversation.product_id := ConversationRow.product_id conv;
     ProductConversation.product_title := ConversationRow.product_title conv;
     ProductConversation.other_participant :=
       {| Participant.id := ConversationRow.other_user_id conv;
          Participant.name := ConversationRow.other_user_name conv;
          Participant.verified := ConversationRow.other_user_verified conv |};
     ProductConversation.last_message :=
       Some {| LastMessage.content := ConversationRow.last_message_content conv;
               LastMessage.created_at := ConversationRow.last_message_at conv |};
     ProductConversation.last_message_at := ConversationRow.last_message_at conv;
     ProductConversation.has_unread := ConversationRow.unread_count conv >? 0;
     ProductConversation.is_buyer := ConversationRow.is_buyer conv |}.

(** [async getUserConversations()]: [rpc] is the settled
    [supabase.rpc('get_user_conversations')], whose [data] may be null;
    [data?.map(...) || []]. *)
Definition getUserConversations (env : Supabase.Env)
    (rpc : Outcome (option (list ConversationRow.t)))
  : Outcome (list ProductConversation.t) :=
  match Supabase.checkSupabaseConfig env with
  | Rejected e => Rejected e
  | Resolved _ =>
      match rpc with
      | Rejected error => Rejected error
      | Resolved (Some data) => Resolved (map formatConversation data)
      | Resolved None => Resolved []
      end
  end.

(** [async getProductMessages(productId, otherUserId)]: [data || []]. *)
Definition getProductMessages (env : Supabase.Env)
    (rpc : Outcome (option (list ProductMessage.t)))
  : Outcome (list ProductMessage.t) :=
  match Supabase.checkSupabaseConfig env with
  | Rejected e => Rejected e
  | Resolved _ =>
      match rpc with
      | Rejected error => Rejected error
      | Resolved (Some data) => Resolved data
      | Resolved None => Resolved []
      end
  end.

(** [async getUnreadMessageCount()]: [rpc] is the settled
    [supabase.rpc('get_unread_message_count')]; the [catch] logs and returns
    0; [data || 0]. *)
Definition getUnreadMessageCount (env : Supabase.Env) (rpc : Outcome (option Z))
  : Outcome Z :=
  match Supabase.checkSupabaseConfig env with
  | Rejected _ => Resolved 0
  | Resolved _ =>
      match rpc with
      | Rejected _ => Resolved 0
      | Resolved (Some data) => Resolved (if data =? 0 then 0 else data)
      | Resolved None => Resolved 0
      end
  end.
End MessageServiceRead.

(** A nullable string argument of a hook is present when it is neither null
    nor empty: [!productId] is its negation. *)
Definition present (v : option string) : bool :=
  match v with
  | Some s => Js.truthy s
  | None => false
  end.

(** ** hooks/useMessages.ts: [useConversations] *)

Module UseConversations.
Import ProductConversation.

Record State : Type := mkState {
  conversations : list ProductConversation.t;
  loading : bool;
  error : option string
}.

(** [useState([])], [useState(true)], [useState(null)] *)
Definition initial : State :=
  {| conversations := []; loading := true; error := None |}.

Section Hook.
(** [getTime s] is the time value of [new Date(s)]; the timestamps of the
    backend are valid dates, so it is a number. *)
Variable getTime : string -> Z.

(** [`${conv.product_id}-${conv.other_participant.id}`] *)
Definition conversationKey (conv : ProductConversation.t) : string :=
  product_id conv ++ "-" ++ Participant.id (other_participant conv).

(** The body of the [forEach]: one conversation entered into
    [uniqueConversations]. *)
Definition keepLatest (uniqueConversations : Js.Map ProductConversation.t)
    (conv : ProductConversation.t) : Js.Map ProductConversation.t :=
  let key := conversationKey conv in
  if (negb (Js.has key uniqueConversations)
      || match Js.get key uniqueConversations with
         | Some kept => getTime (last_message_at conv) >? getTime (last_message_at kept)
         | None => false
         end)%bool
  then Js.set key conv uniqueConversations
  else uniqueConversations.

(** [uniqueConversations] after the [forEach] over [data], from
    [new Map()]. *)
Definition uniqueConversations (data : list ProductConversation.t)
  : Js.Map ProductConversation.t :=
  fold_left keepLatest data Js.empty.

(** [fetchConversations]: [user] is the session user of [useAuth], [fetched]
    the settled [messageService.getUserConversations()]. *)
Definition fetchConversations (user : option string)
    (fetched : Outcome (list ProductConversation.t)) (st : State) : State :=
  match user with
  | None => {| conversations := []; loading := false; error := error st |}
  | Some _ =>
      match fetched with
      | Resolved data =>
          {| conversations := Js.values (uniqueConversations data);
             loading := false;
             error := None |}
      | Rejected err =>
          {| conversations := conversations st;
             loading := false;
             error := Some (messageOr err "Failed to fetch conversations") |}
      end
  end.

(** The hook over time: each refetch (mount, change of user, realtime
    callback, [refetch]) is one call of [fetchConversations]. *)
Definition Fetch : Type := (option string * Outcome (list ProductConversation.t))%type.

Definition run (fetches : list Fetch) (st : State) : State :=
  fold_left (fun s f => fetchConversations (fst f) (snd f) s) fetches st.
End Hook.

(** The pair that identifies a conversation for the viewer. *)
Definition pairOf (conv : ProductConversation.t) : string * string :=
  (product_id conv, Participant.id (other_participant conv)).
End UseConversations.

(** ** hooks/useMessages.ts: [useProductMessages] *)

Module UseProductMessages.
Import ProductMessage.

Record State : Type := mkState {
  messages : list ProductMessage.t;
  loading : bool;
  error : option string
}.

Definition initial : State :=
  {| messages := []; loading := true; error := None |}.

Section Hook.
(** [getTime s] is the time value of [new Date(s)], as in
    [UseConversations]. *)
Variable getTime : string -> Z.

(** The comparator of both sorts:
    [new Date(a.created_at).getTime() - new Date(b.created_at).getTime()]. *)
Definition byCreatedAt (a b : ProductMessage.t) : Z :=
  getTime (created_at a) - getTime (created_at b).

(** [uniqueMessages] after the [forEach] over [data], from [new Map()]:
    every message is [set] under its id. *)
Definition uniqueMessages (data : list ProductMessage.t) : Js.Map ProductMessage.t :=
  fold_left (fun m msg => Js.set (id msg) msg m) data Js.empty.

(** The array given to [setMessages] by [fetchMessages]. *)
Definition fetchedMessages (data : list ProductMessage.t) : list ProductMessage.t :=
  Js.sort byCreatedAt (Js.values (uniqueMessages data)).

(** [fetchMessages]: [fetched] is the settled
    [messageService.getProductMessages(productId, otherUserId)] and [marked]
    the settled [messageService.markMessagesAsRead(productId, otherUserId)],
    awaited only with a session user. *)
Definition fetchMessages (productId otherUserId user : option string)
    (fetched : Outcome (list ProductMessage.t)) (marked : Outcome unit)
    (st : State) : State :=
  if (negb (present productId) || negb (present otherUserId))%bool then
    {| messages := []; loading := false; error := error st |}
  else
    match fetched with
    | Rejected err =>
        {| messages := messages st;
           loading := false;
           error := Some (messageOr err "Failed to fetch messages") |}
    | Resolved data =>
        match user, marked with
        | Some _, Rejected err =>
            {| messages := fetchedMessages data;
               loading := false;
               error := Some (messageOr err "Failed to fetch messages") |}
        | _, _ =>
            {| messages := fetchedMessages data; loading := false; error := None |}
        end
    end.

(** The updater given to [setMessages] by the realtime callback:
    [prev => prev.some(msg => msg.id === newMessage.id) ? prev
             : [...prev, newMessage].sort(...)]. *)
Definition mergeNewMessage (prev : list ProductMessage.t) (newMessage : ProductMessage.t)
  : list ProductMessage.t :=
  if Js.some (fun msg => String.eqb (id msg) (id newMessage)) prev then prev
  else Js.sort byCreatedAt (prev ++ [newMessage])%list.

(** The realtime callback on the state of the hook. *)
Definition onNewMessage (newMessage : ProductMessage.t) (st : State) : State :=
  {| messages := mergeNewMessage (messages st) newMessage;
     loading := loading st;
     error := error st |}.

(** What happens to the cache of an open thread. *)
Inductive Arrival : Type :=
| Fetched (productId otherUserId user : option string)
    (fetched : Outcome (list ProductMessage.t)) (marked : Outcome unit)
| Pushed (newMessage : ProductMessage.t).

Definition step (st : State) (a : Arrival) : State :=
  match a with
  | Fetched productId otherUserId user fetched marked =>
      fetchMessages productId otherUserId user fetched marked st
  | Pushed newMessage => onNewMessage newMessage st
  end.

Definition run (arrivals : list Arrival) (st : State) : State :=
  fold_left step arrivals st.

(** The cache is in chronological order: [created_at] ascending. *)
Definition chronological (l : list ProductMessage.t) : Prop :=
  StronglySorted (fun a b => getTime (created_at a) <= getTime (created_at b)) l.

Section Send.
Variables S R : Type.
Variable rpc_send : string -> string -> string -> S -> Outcome R * S.

(** [sendMessage(content)]: the guard returns [undefined] ([None]); the
    [catch] records the message of the error and rethrows. *)
Definition sendMessage (env : Supabase.Env) (productId otherUserId user : option string)
    (content : string) (st : State) (backend : S)
  : Outcome (option R) * State * S :=
  match productId, otherUserId with
  | Some p, Some o =>
      if (negb (present productId) || negb (present otherUserId)
          || negb (match user with Some _ => true | None => false end)
          || negb (Js.truthy (Js.trim content)))%bool
      then (Resolved None, st, backend)
      else
        match MessageService.sendProductMessage rpc_send env p o content backend with
        | (Resolved result, backend') => (Resolved (Some result), st, backend')
        | (Rejected err, backend') =>
            (Rejected err,
             {| messages := messages st;
                loading := loading st;
                error := Some (messageOr err "Failed to send message") |},
             backend')
        end
  | _, _ => (Resolved None, st, backend)
  end.
End Send.
End Hook.

Arguments sendMessage {S R} rpc_send env productId otherUserId user content st backend.

(** Number of cached messages with a given id. *)
Definition occurrences (i : string) (l : list ProductMessage.t) : nat :=
  List.length (filter (fun msg => String.eqb (id msg) i) l).
End UseProductMessages.

(** ** pages/ProductDetail.tsx: [handleContactSeller] *)

Module ProductDetail.
Record Product : Type := mkProduct {
  seller_id : string;
  title : string
}.

(** What the handler does to the page. *)
Inductive Effect : Type :=
| Navigate (url : string)
| Alert (text : string)
| Warn (text : string).

(** [handleContactSeller]: [user] is the id of the session user, [product]
    the loaded product, [productId] the route parameter. *)
Definition handleContactSeller (user : option string) (product : option Product)
    (productId : string) : Effect :=
  match user with
  | None => Navigate "/login"
  | Some uid =>
      match product with
      | None => Alert "Erreur: Informations du vendeur manquantes."
      | Some p =>
          if negb (Js.truthy (seller_id p)) then
            Alert "Erreur: Informations du vendeur manquantes."
          else if String.eqb uid (seller_id p) then
            Warn "User trying to contact themselves"
          else
            Navigate ("/messages?product=" ++ productId ++ "&user=" ++ seller_id p)
      end
  end.
End ProductDetail.

(** ** services/database.ts: [messageService], the realtime subscriptions *)

Module Realtime.

(** The row carried by a change of the [messages] table: [payload.new],
    which the handler of [subscribeToProductMessages] reads on an insert. *)
Record Row : Type := mkRow {
  id : string;
  product_id : string;
  sender_id : string;
  recipient_id : string;
  content : string;
  read_at : option string;
  created_at : string
}.

Inductive EventType : Type := INSERT | UPDATE | DELETE.

Record Change : Type := mkChange {
  eventType : EventType;
  new : Row
}.

(** The [event] of a binding: ['*'] or ['INSERT']. *)
Inductive EventFilter : Type := AnyEvent | OnInsert.

(** The [filter] of a binding:
    [or(sender_id.eq.U,recipient_id.eq.U)] or [product_id=eq.P]. *)
Inductive RowFilter : Type :=
| InvolvesUser (userId : string)
| OfProduct (productId : string).

Definition eventMatches (f : EventFilter) (e : EventType) : bool :=
  match f, e with
  | AnyEvent, _ => true
  | OnInsert, INSERT => true
  | OnInsert, _ => false
  end.

Definition rowMatches (f : RowFilter) (r : Row) : bool :=
  match f with
  | InvolvesUser u => (String.eqb (sender_id r) u || String.eqb (recipient_id r) u)%bool
  | OfProduct p => String.eqb (product_id r) p
  end.

Section Callbacks.
(** The callbacks of the callers, by name. *)
Context {Callback : Type}.

(** The function bound to the channel: the caller's callback itself
    ([subscribeToUserMessages]) or the closure over [otherUserId] and
    [callback] ([subscribeToProductMessages]). *)
Inductive Handler : Type :=
| Direct (callback : Callback)
| BetweenUsers (otherUserId : string) (callback : Callback).

Record Binding : Type := mkBinding {
  topic : string;
  event : EventFilter;
  filter : RowFilter;
  handler : Handler
}.

(** The realtime client: the joined channels, each under its reference.
    [available] tells whether [supabase.channel(...).on(...).subscribe()]
    returns; when it is false the call throws and joins nothing. *)
Record Client : Type := mkClient {
  channels : list (nat * Binding);
  next_ref : nat;
  available : bool
}.

(** What a subscribe function returns: the channel, or the object
    [{ unsubscribe: () => {} }] of its [catch]. *)
Inductive Handle : Type :=
| Channel (ref : nat)
| Inert.

(** [supabase.channel(topic).on('postgres_changes', {...}, handler).subscribe()] *)
Definition join (b : Binding) (c : Client) : Outcome (nat * Client) :=
  if available c then
    Resolved (next_ref c,
              {| channels := (channels c ++ [(next_ref c, b)])%list;
                 next_ref := Datatypes.S (next_ref c);
                 available := available c |})
  else Rejected (Error.Backend "realtime unavailable").

(** [subscribeToUserMessages(userId, callback)] *)
Definition subscribeToUserMessages (env : Supabase.Env) (userId : string)
    (callback : Callback) (c : Client) : Handle * Client :=
  match Supabase.checkSupabaseConfig env with
  | Rejected _ => (Inert, c)
  | Resolved _ =>
      match join {| topic := "user-messages";
                    event := AnyEvent;
                    filter := InvolvesUser userId;
                    handler := Direct callback |} c with
      | Resolved (ref, c') => (Channel ref, c')
      | Rejected _ => (Inert, c)
      end
  end.

(** [subscribeToProductMessages(productId, otherUserId, callback)] *)
Definition subscribeToProductMessages (env : Supabase.Env)
    (productId otherUserId : string) (callback : Callback) (c : Client)
  : Handle * Client :=
  match Supabase.checkSupabaseConfig env with
  | Rejected _ => (Inert, c)
  | Resolved _ =>
      match join {| topic := "product-messages-" ++ productId;
                    event := OnInsert;
                    filter := OfProduct productId;
                    handler := BetweenUsers otherUserId callback |} c with
      | Resolved (ref, c') => (Channel ref, c')
      | Rejected _ => (Inert, c)
      end
  end.

(** [subscription.unsubscribe()]: leaves the channel; on the inert handle
    it is [() => {}]. *)
Definition unsubscribe (h : Handle) (c : Client) : Outcome unit * Client :=
  match h with
  | Inert => (Resolved tt, c)
  | Channel ref =>
      (Resolved tt,
       {| channels := List.filter (fun rb => negb (Nat.eqb (fst rb) ref)) (channels c);
          next_ref := next_ref c;
          available := available c |})
  end.

(** The user embedded in a message by the select of the handler
    ([sender:users!messages_sender_id_fkey(id, name)]). *)
Record UserRef : Type := mkUserRef {
  user_id : string;
  user_name : string
}.

Record MessageWithUsers : Type := mkMessageWithUsers {
  row : Row;
  sender : option UserRef;
  recipient : option UserRef
}.

(** What the handler reads when an event arrives: the session user of
    [supabase.auth.getUser()] and the result of the select
    [.eq('id', newMessage.id).single()], null when it fails. *)
Record World : Type := mkWorld {
  currentUser : option string;
  selectMessage : string -> option MessageWithUsers
}.

(** [ref?.name || 'Unknown'] *)
Definition nameOrUnknown (u : option UserRef) : string :=
  match u with
  | Some r => if Js.truthy (user_name r) then user_name r else "Unknown"
  | None => "Unknown"
  end.

(** The object passed to [callback] by the handler. *)
Definition decorate (m : MessageWithUsers) : ProductMessage.t :=
  {| ProductMessage.id := id (row m);
     ProductMessage.product_id := product_id (row m);
     ProductMessage.sender_id := sender_id (row m);
     ProductMessage.recipient_id := recipient_id (row m);
     ProductMessage.content := content (row m);
     ProductMessage.read_at := read_at (row m);
     ProductMessage.created_at := created_at (row m);
     ProductMessage.sender_name := nameOrUnknown (sender m);
     ProductMessage.recipient_name := nameOrUnknown (recipient m) |}.

(** The handler of [subscribeToProductMessages] on one payload: the argument
    of its call of [callback], or [None] when it returns without calling. *)
Definition onProductInsert (w : World) (otherUserId : string) (newMessage : Row)
  : option ProductMessage.t :=
  match currentUser w with
  | None => None
  | Some uid =>
      if ((String.eqb (sender_id newMessage) uid
           && String.eqb (recipient_id newMessage) otherUserId)
          || (String.eqb (sender_id newMessage) otherUserId
              && String.eqb (recipient_id newMessage) uid))%bool
      then
        match selectMessage w (id newMessage) with
        | Some messageWithUsers => Some (decorate messageWithUsers)
        | None => None
        end
      else None
  end.

(** One call of a caller's callback: the channel it came through, the
    callback, and the decorated message that the handler of
    [subscribeToProductMessages] passes to it.  A [Direct] callback is bound
    to the channel itself and is called by the library with the payload of
    the change; no decorated message is built for it, and [argument] is
    [None]. *)
Record Invocation : Type := mkInvocation {
  via : nat;
  called : Callback;
  argument : option ProductMessage.t
}.

(** The calls one change causes through one joined channel.  The test on
    [event] and [filter] is the part of the realtime server, which sends a
    change to the channels whose options it passes; a channel that receives
    the change runs its handler. *)
Definition notify (w : World) (ch : Change) (rb : nat * Binding) : list Invocation :=
  let b := snd rb in
  if (eventMatches (event b) (eventType ch) && rowMatches (filter b) (new ch))%bool then
    match handler b with
    | Direct callback =>
        [{| via := fst rb; called := callback; argument := None |}]
    | BetweenUsers otherUserId callback =>
        match onProductInsert w otherUserId (new ch) with
        | Some message =>
            [{| via := fst rb; called := callback; argument := Some message |}]
        | None => []
        end
    end
  else [].

(** The calls one change causes in a client. *)
Definition deliver (w : World) (c : Client) (ch : Change) : list Invocation :=
  flat_map (notify w ch) (channels c).

(** The calls a sequence of changes causes, each read in its own world. *)
Definition deliverAll (c : Client) (events : list (World * Change)) : list Invocation :=
  flat_map (fun e => deliver (fst e) c (snd e)) events.

(** The calls made through a handle. *)
Definition invokedOn (h : Handle) (calls : list Invocation) : list Invocation :=
  match h with
  | Inert => []
  | Channel ref => List.filter (fun i => Nat.eqb (via i) ref) calls
  end.

(** References are handed out in order: every joined channel has a
    reference below [next_ref]. *)
Definition wellFormed (c : Client) : bool :=
  forallb (fun rb => Nat.ltb (fst rb) (next_ref c)) (channels c).

(** The pair of a row is exactly the two users, in either direction. *)
Definition between (a b : string) (r : Row) : Prop :=
  (sender_id r = a /\ recipient_id r = b) \/ (sender_id r = b /\ recipient_id r = a).

(** Setup fails when the configuration check or the join throws. *)
Definition setupFails (env : Supabase.Env) (c : Client) : bool :=
  (negb (Supabase.isSupabaseConfigured env) || negb (available c))%bool.
End Callbacks.

Arguments Handler : clear implicits.
Arguments Binding : clear implicits.
Arguments Client : clear implicits.
Arguments Invocation : clear implicits.
End Realtime.

(** ** More JavaScript string primitives *)

Module JsString.
(** [s.includes(sub)]: [sub] is a prefix of [s] or occurs further on. *)
Fixpoint includes (sub s : string) : bool :=
  (String.prefix sub s
   || match s with
      | EmptyString => false
      | String _ s' => includes sub s'
      end)%bool.

(** [toLowerCase] on one code unit below U+0100: A to Z, and the accented
    capitals U+00C0 to U+00DE except the multiplication sign. *)
Definition lowerChar (c : ascii) : ascii :=
  let n := nat_of_ascii c in
  if ((Nat.leb 65 n && Nat.leb n 90)
      || (Nat.leb 192 n && Nat.leb n 222 && negb (Nat.eqb n 215)))%bool
  then ascii_of_nat (n + 32)
  else c.

(** [s.toLowerCase()] *)
Fixpoint toLowerCase (s : string) : string :=
  match s with
  | EmptyString => EmptyString
  | String c s' => String (lowerChar c) (toLowerCase s')
  end.
End JsString.

(** ** lib/supabase.ts: the status of the configuration *)

Module SupabaseStatus.
Record Status : Type := mkStatus {
  hasUrl : bool;
  hasKey : bool;
  urlValid : bool;
  configured : bool
}.

(** [getSupabaseConfigStatus()] *)
Definition getSupabaseConfigStatus (env : Supabase.Env) : Status :=
  {| hasUrl := Supabase.truthy (Supabase.VITE_SUPABASE_URL env);
     hasKey := Supabase.truthy (Supabase.VITE_SUPABASE_ANON_KEY env);
     urlValid := match Supabase.VITE_SUPABASE_URL env with
                 | Some url => if Js.truthy url then String.prefix "https://" url else false
                 | None => false
                 end;
     configured := Supabase.isSupabaseConfigured env |}.
End SupabaseStatus.

(** ** services/database.ts: [userService.getProfile] *)

Module Profile.
(** A row of the [users] table, with the [setupRequired] mark of the
    temporary admin profile of the auth context. *)
Record t : Type := mk {
  id : string;
  email : string;
  name : string;
  role : string;
  phone : option string;
  address : option string;
  avatar : option string;
  verified : bool;
  created_at : option string;
  updated_at : option string;
  setupRequired : bool
}.
End Profile.

Module UserService.
(** The profile built when the user cannot be read;
    [created] and [updated] are the two [new Date().toISOString()]. *)
Definition fallbackProfile (id created updated : string) : Profile.t :=
  {| Profile.id := id;
     Profile.email := "vendeur@masociete.info";
     Profile.name := "Vendeur";
     Profile.role := "seller";
     Profile.phone := None;
     Profile.address := None;
     Profile.avatar := None;
     Profile.verified := false;
     Profile.created_at := Some created;
     Profile.updated_at := Some updated;
     Profile.setupRequired := false |}.

(** [async getProfile(id)]: [direct] is the settled query
    [from('users').select('*').eq('id', id).maybeSingle()] and [rpc] the
    settled [rpc('get_user_by_id', { user_id: id })], a returned error or a
    thrown one as [Rejected], null data as [None]. *)
Definition getProfile (env : Supabase.Env) (id : string)
    (direct rpc : Outcome (option Profile.t)) (created updated : string)
  : Outcome Profile.t :=
  match Supabase.checkSupabaseConfig env with
  | Rejected _ => Resolved (fallbackProfile id created updated)
  | Resolved _ =>
      match direct with
      | Rejected _ => Resolved (fallbackProfile id created updated)
      | Resolved (Some data) => Resolved data
      | Resolved None =>
          match rpc with
          | Resolved (Some rpcData) => Resolved rpcData
          | Resolved None => Resolved (fallbackProfile id created updated)
          | Rejected _ => Resolved (fallbackProfile id created updated)
          end
      end
  end.
End UserService.

(** ** contexts/AuthContext.tsx: the auth provider *)

Module Auth.
Record State : Type := mkState {
  user : option string;
  profile : option Profile.t;
  isLoading : bool;
  profileLoading : bool
}.

(** [localStorage] and [sessionStorage]: the entries, or [None] when the
    access to the storage throws. *)
Definition Storage : Type := option (list (string * string)).

(** [storage.removeItem(key)] *)
Definition removeItem (key : string) (entries : list (string * string))
  : list (string * string) :=
  List.filter (fun kv => negb (String.eqb (fst kv) key)) entries.

(** The first [try] of [forceAuthClear]: the two named items, then every
    key of [Object.keys(localStorage)] that includes 'supabase' or 'auth'. *)
Definition clearLocalStorage (localStorage : Storage) : Storage :=
  match localStorage with
  | None => None
  | Some entries =>
      let entries1 := removeItem "supabase.auth.token" entries in
      let entries2 := removeItem "sb-wfuoqbvnwsjjwuzcnfpw-auth-token" entries1 in
      Some (fold_left
              (fun remaining key =>
                 if (JsString.includes "supabase" key || JsString.includes "auth" key)%bool
                 then removeItem key remaining
                 else remaining)
              (map fst entries2) entries2)
  end.

(** [sessionStorage.clear()] in its [try]. *)
Definition clearSessionStorage (sessionStorage : Storage) : Storage :=
  match sessionStorage with
  | None => None
  | Some _ => Some []
  end.

(** [forceAuthClear()] on the state of the provider and the two storages. *)
Definition forceAuthClear (st : State) (localStorage sessionStorage : Storage)
  : State * Storage * Storage :=
  ({| user := None; profile := None; isLoading := false; profileLoading := false |},
   clearLocalStorage localStorage,
   clearSessionStorage sessionStorage).

(** What one attempt of [loadUserProfile] reads: the settled
    [userService.getProfile(userId)], the settled direct query on [users]
    (a returned error as [Rejected]) and the email of
    [supabase.auth.getUser()]. *)
Record Attempt : Type := mkAttempt {
  viaService : Outcome (option Profile.t);
  viaQuery : Outcome (option Profile.t);
  sessionEmail : Outcome (option string)
}.

(** The temporary profile set for the admin email. *)
Definition adminSetupProfile (userId : string) : Profile.t :=
  {| Profile.id := userId;
     Profile.email := "admin@masociete.info";
     Profile.name := "Admin Setup Required";
     Profile.role := "admin";
     Profile.phone := None;
     Profile.address := None;
     Profile.avatar := None;
     Profile.verified := false;
     Profile.created_at := None;
     Profile.updated_at := None;
     Profile.setupRequired := true |}.

(** What a call of [loadUserProfile] leaves: the value it returns, which is
    also the profile it has set, and the number of attempts it made. *)
Record Loaded : Type := mkLoaded {
  returned : option Profile.t;
  attempts : nat
}.

(** [error.message?.includes('infinite recursion') ||
     error.message?.includes('policy')] *)
Definition isPolicyError (e : Error.t) : bool :=
  (JsString.includes "infinite recursion" (Error.message e)
   || JsString.includes "policy" (Error.message e))%bool.

(** One pass through the body of [loadUserProfile(userId, retryCount)] past
    its guard: [read] is what this attempt reads and [retry] what the call
    [loadUserProfile(userId, retryCount + 1)] settles to, counted with this
    attempt; [caught] is the [catch] block. *)
Definition attemptOnce (userId : string) (read : Attempt) (retryCount : nat)
    (retry : option Loaded) : option Loaded :=
  let caught (error : Error.t) :=
    if isPolicyError error then Some {| returned := None; attempts := 1 |}
    else if Nat.ltb retryCount 1 then retry
    else Some {| returned := None; attempts := 1 |} in
  let found (profileData : Profile.t) :=
    Some {| returned := Some profileData; attempts := 1 |} in
  match viaService read with
  | Rejected error => caught error
  | Resolved (Some profileData) => found profileData
  | Resolved None =>
      match viaQuery read with
      | Rejected directError => caught directError
      | Resolved (Some directProfile) => found directProfile
      | Resolved None =>
          match sessionEmail read with
          | Rejected error => caught error
          | Resolved email =>
              if match email with
                 | Some e => String.eqb e "admin@masociete.info"
                 | None => false
                 end
              then found (adminSetupProfile userId)
              else if Nat.ltb retryCount 2 then retry
              else Some {| returned := None; attempts := 1 |}
          end
      end
  end.

(** [loadUserProfile(userId, retryCount)] past its guard; [io n] is what the
    attempt with [retryCount = n] reads.  The recursion of the source is on
    [retryCount + 1]; [fuel] bounds it here, and [None] means that the fuel
    ran out. *)
Fixpoint loadAttempts (fuel : nat) (userId : string) (io : nat -> Attempt)
    (retryCount : nat) : option Loaded :=
  match fuel with
  | O => None
  | Datatypes.S fuel' =>
      attemptOnce userId (io retryCount) retryCount
        match loadAttempts fuel' userId io (Datatypes.S retryCount) with
        | Some l => Some {| returned := returned l; attempts := Datatypes.S (attempts l) |}
        | None => None
        end
  end.

(** [loadUserProfile(userId)] on the state of the provider: with a load in
    progress it returns null at once; otherwise the profile is set to what it
    returns and [profileLoading] is cleared by the [finally]. *)
Definition loadUserProfile (fuel : nat) (userId : string) (io : nat -> Attempt)
    (st : State) : option (Loaded * State) :=
  if profileLoading st then Some ({| returned := None; attempts := 0 |}, st)
  else
    match loadAttempts fuel userId io 0 with
    | Some l =>
        Some (l, {| user := user st;
                    profile := returned l;
                    isLoading := isLoading st;
                    profileLoading := false |})
    | None => None
    end.

(** [AuthResult] *)
Record AuthResult : Type := mkAuthResult {
  success : bool;
  error : option string;
  redirect : option string
}.

(** What [supabase.auth.signInWithPassword] settles to: a returned error,
    the data with its user (or none), or a thrown error. *)
Inductive SignIn : Type :=
| SignInError (error : Error.t)
| SignInData (userId : option string)
| SignInThrows (error : Error.t).

(** [login(email, password)]: [signIn] is the settled sign-in and [io] what
    the attempts of [loadUserProfile] read. *)
Definition login (fuel : nat) (signIn : SignIn) (io : nat -> Attempt) (st : State)
  : option (AuthResult * State) :=
  match signIn with
  | SignInError error =>
      Some ({| success := false;
               error := Some (messageOr error "Login failed");
               redirect := None |},
            {| user := user st; profile := profile st;
               isLoading := false; profileLoading := profileLoading st |})
  | SignInThrows error =>
      Some ({| success := false;
               error := Some (messageOr error "Login failed");
               redirect := None |},
            {| user := user st; profile := profile st;
               isLoading := false; profileLoading := profileLoading st |})
  | SignInData None =>
      Some ({| success := false;
               error := Some "No user data returned";
               redirect := None |},
            {| user := user st; profile := profile st;
               isLoading := false; profileLoading := profileLoading st |})
  | SignInData (Some userId) =>
      match loadUserProfile fuel userId io
              {| user := Some userId; profile := profile st;
                 isLoading := true; profileLoading := profileLoading st |} with
      | None => None
      | Some (l, st') =>
          let redirectPath :=
            match returned l with
            | Some userProfile =>
                if String.eqb (Profile.role userProfile) "admin" then "/admin"
                else if String.eqb (Profile.role userProfile) "seller"
                     then "/seller/dashboard"
                     else "/"
            | None => "/"
            end in
          Some ({| success := true; error := None; redirect := Some redirectPath |},
                {| user := user st'; profile := profile st';
                   isLoading := false; profileLoading := profileLoading st' |})
      end
  end.

(** The attempts of [loadUserProfile] as the provider makes them: the
    service is [userService.getProfile] over its two lookups. *)
Definition throughUserService (env : Supabase.Env) (userId : string)
    (lookups : nat -> Outcome (option Profile.t) * Outcome (option Profile.t))
    (clock : nat -> string * string)
    (rest : nat -> Outcome (option Profile.t) * Outcome (option string))
    (n : nat) : Attempt :=
  {| viaService :=
       match UserService.getProfile env userId (fst (lookups n)) (snd (lookups n))
               (fst (clock n)) (snd (clock n)) with
       | Resolved p => Resolved (Some p)
       | Rejected e => Rejected e
       end;
     viaQuery := fst (rest n);
     sessionEmail := snd (rest n) |}.
End Auth.

(** ** services/database.ts: [categoryService] *)

Module CategoryService.
(** A row of [product_subcategories]; [sort_order] may come back null. *)
Record Subcategory : Type := mkSubcategory {
  sub_id : string;
  sub_category_id : string;
  sub_name : string;
  sub_slug : string;
  sub_sort_order : option Z;
  sub_active : bool
}.

(** A row of [product_categories], with the embedded [subcategories] of the
    select of [getCategoriesWithSubcategories] when it has them. *)
Record Category : Type := mkCategory {
  id : string;
  name : string;
  slug : string;
  sort_order : Z;
  active : bool;
  subcategories : option (list Subcategory)
}.

(** [count || 0] *)
Definition orZero (count : option Z) : Z :=
  match count with
  | Some n => if n =? 0 then 0 else n
  | None => 0
  end.

(** The object built for one category, [{ ...category, product_count }]:
    [counted] is the settled count query of that category, a returned or
    thrown error as [Rejected]. *)
Definition withCount (counted : Outcome (option Z)) (category : Category) : Category * Z :=
  match counted with
  | Rejected _ => (category, 0)
  | Resolved count => (category, orZero count)
  end.

(** [async getCategoriesWithProductCounts()]: [categories] is the settled
    query of the active categories and [countProducts id] the settled count
    of the active products of the category [id]. *)
Definition getCategoriesWithProductCounts (env : Supabase.Env)
    (categories : Outcome (option (list Category)))
    (countProducts : string -> Outcome (option Z))
  : Outcome (list (Category * Z)) :=
  match Supabase.checkSupabaseConfig env with
  | Rejected _ => Resolved []
  | Resolved _ =>
      match categories with
      | Rejected _ => Resolved []
      | Resolved None => Resolved []
      | Resolved (Some rows) =>
          if Nat.eqb (List.length rows) 0 then Resolved []
          else Resolved (map (fun category => withCount (countProducts (id category)) category)
                             rows)
      end
  end.

(** [(a.sort_order || 0) - (b.sort_order || 0)] *)
Definition bySortOrder (a b : Subcategory) : Z :=
  orZero (sub_sort_order a) - orZero (sub_sort_order b).

(** [{ ...category, subcategories: category.subcategories?.sort(...) || [] }] *)
Definition withSortedSubcategories (category : Category) : Category :=
  {| id := id category;
     name := name category;
     slug := slug category;
     sort_order := sort_order category;
     active := active category;
     subcategories :=
       match subcategories category with
       | Some subs => Some (Js.sort bySortOrder subs)
       | None => Some []
       end |}.

(** [async getCategoriesWithSubcategories()]: an error is rethrown. *)
Definition getCategoriesWithSubcategories (env : Supabase.Env)
    (selected : Outcome (option (list Category))) : Outcome (list Category) :=
  match Supabase.checkSupabaseConfig env with
  | Rejected e => Rejected e
  | Resolved _ =>
      match selected with
      | Rejected error => Rejected error
      | Resolved (Some data) => Resolved (map withSortedSubcategories data)
      | Resolved None => Resolved []
      end
  end.
End CategoryService.

(** ** pages/ProductDetail.tsx: the gallery and the quantity *)

Module ProductGallery.
(** [nextImage]: the updater of [currentImageIndex], applied when the
    product is loaded and has more than one image. *)
Definition nextImage (images : option (list string)) (prev : Z) : Z :=
  match images with
  | Some imgs =>
      if Z.of_nat (List.length imgs) >? 1
      then if prev =? Z.of_nat (List.length imgs) - 1 then 0 else prev + 1
      else prev
  | None => prev
  end.

(** [prevImage] *)
Definition prevImage (images : option (list string)) (prev : Z) : Z :=
  match images with
  | Some imgs =>
      if Z.of_nat (List.length imgs) >? 1
      then if prev =? 0 then Z.of_nat (List.length imgs) - 1 else prev - 1
      else prev
  | None => prev
  end.

(** The "-" button: [setQuantity(Math.max(1, quantity - 1))]. *)
Definition decrement (quantity : Z) : Z := Z.max 1 (quantity - 1).

(** The "+" button: [setQuantity(Math.min(product.stock, quantity + 1))]. *)
Definition increment (stock quantity : Z) : Z := Z.min stock (quantity + 1).

(** A click on one of the two buttons. *)
Inductive Click : Type := Minus | Plus.

Definition click (stock quantity : Z) (c : Click) : Z :=
  match c with
  | Minus => decrement quantity
  | Plus => increment stock quantity
  end.

(** The quantity after the clicks, from [useState(1)]. *)
Definition quantityAfter (stock : Z) (clicks : list Click) : Z :=
  fold_left (click stock) clicks 1.
End ProductGallery.

(** ** pages/ProductDetail.tsx: [fetchRelatedProducts] *)

Module RelatedProducts.
(** The fields of a product row that the function reads. *)
Record Product : Type := mkProduct {
  id : string;
  category_id : string;
  subcategory_id : option string;
  created_at : string
}.



Section Fallback.
Variable getTime : string -> Z.



End Fallback.
End RelatedProducts.

(** ** pages/seller/SellerDashboard.tsx: [fetchDashboardData] *)

Module SellerDashboard.
Section Stats.
(** The numbers of JavaScript, with the operations the statistics use:
    [zero] is 0, [add] is +, [orZero x] is [x || 0], and [mockRating] is the
    literal 4.5. *)
Variable Num : Type.
Variable zero : Num.
Variable add : Num -> Num -> Num.
Variable orZero : Num -> Num.
Variable mockRating : Num.

Record Product : Type := mkProduct {
  product_id : string;
  title : string;
  price : Num;
  product_currency : string;
  product_status : string;
  stock : Num;
  product_created_at : string
}.

Record Order : Type := mkOrder {
  order_id : string;
  total : Num;
  order_currency : string;
  order_status : string;
  order_created_at : string;
  buyer_name : string
}.

Record SellerStats : Type := mkStats {
  totalProducts : nat;
  activeProducts : nat;
  totalOrders : nat;
  pendingOrders : nat;
  totalRevenue : Num;
  averageRating : Num
}.

Record Dashboard : Type := mkDashboard {
  stats : SellerStats;
  recentProducts : list Product;
  recentOrders : list Order
}.

(** The value of [products] (or [orders]) after its [try]: the data of the
    service, null included, or [[]] when the call throws. *)
Definition settled {A : Type} (fetched : Outcome (option (list A))) : option (list A) :=
  match fetched with
  | Resolved data => data
  | Rejected _ => Some []
  end.

(** [['paid', 'shipped', 'delivered'].includes(order.status)] *)
Definition countsAsRevenue (order : Order) : bool :=
  (String.eqb (order_status order) "paid" || String.eqb (order_status order) "shipped"
   || String.eqb (order_status order) "delivered")%bool.

(** The [reduce] over the orders. *)
Definition revenue (orders : list Order) : Num :=
  fold_left (fun sum order => if countsAsRevenue order then add sum (orZero (total order))
                              else sum)
            orders zero.

(** [list?.length || 0] and the like on a list that may be null. *)
Definition orNil {A : Type} (l : option (list A)) : list A :=
  match l with
  | Some l => l
  | None => []
  end.

(** [fetchDashboardData]: the statistics and the two recent lists. *)
Definition fetchDashboardData (fetchedProducts : Outcome (option (list Product)))
    (fetchedOrders : Outcome (option (list Order))) : Dashboard :=
  let products := settled fetchedProducts in
  let orders := settled fetchedOrders in
  {| stats :=
       {| totalProducts := List.length (orNil products);
          activeProducts :=
            List.length (List.filter (fun p => String.eqb (product_status p) "active")
                                     (orNil products));
          totalOrders := List.length (orNil orders);
          pendingOrders :=
            List.length (List.filter (fun o => String.eqb (order_status o) "pending")
                                     (orNil orders));
          totalRevenue :=
            match orders with
            | Some l => orZero (revenue l)
            | None => zero
            end;
          averageRating := mockRating |};
     recentProducts := firstn 5 (orNil products);
     recentOrders := firstn 5 (orNil orders) |}.
End Stats.
End SellerDashboard.

(** ** pages/Messages.tsx *)

Module MessagesPage.
Import ProductConversation.

(** [conversations.filter(...)] of [filteredConversations]. *)
Definition filteredConversations (searchTerm : string)
    (conversations : list ProductConversation.t) : list ProductConversation.t :=
  List.filter
    (fun conversation =>
       (JsString.includes (JsString.toLowerCase searchTerm)
          (JsString.toLowerCase (Participant.name (other_participant conversation)))
        || JsString.includes (JsString.toLowerCase searchTerm)
             (JsString.toLowerCase (product_title conversation)))%bool)
    conversations.

(** The predicate of the three [find] calls:
    [c.product_id === productId && c.other_participant.id === otherUserId]. *)
Definition isThread (productId otherUserId : string) (c : ProductConversation.t) : bool :=
  (String.eqb (product_id c) productId
   && String.eqb (Participant.id (other_participant c)) otherUserId)%bool.

(** The temporary conversation; [now] is [new Date().toISOString()]. *)
Definition tempConversation (productId otherUserId now : string) : ProductConversation.t :=
  {| id := productId ++ "-" ++ otherUserId;
     product_id := productId;
     product_title := "Loading...";
     other_participant :=
       {| Participant.id := otherUserId;
          Participant.name := "Loading...";
          Participant.verified := false |};
     last_message := None;
     last_message_at := now;
     has_unread := false;
     is_buyer := true |}.

(** What [handleCreateNewConversation] does: nothing, the selection of a
    conversation (one found before the call, one found after it, or the
    temporary one), or the alert of its [catch]. *)
Inductive Creation : Type :=
| Skipped
| SelectedExisting (conversation : ProductConversation.t)
| SelectedCreated (conversation : ProductConversation.t)
| SelectedTemporary (conversation : ProductConversation.t)
| Alerted.

(** [handleCreateNewConversation]: [productId] and [otherUserId] are the two
    search parameters, [conversations] the list of the render the handler
    belongs to (the list it sees before and after the awaited refetch), and
    [sent] the settled [messageService.handleProductMessage]. *)
Definition handleCreateNewConversation (productId otherUserId user : option string)
    (isCreatingConversation : bool) (conversations : list ProductConversation.t)
    (sent : Outcome unit) (now : string) : Creation :=
  match productId, otherUserId with
  | Some p, Some o =>
      if (negb (present productId) || negb (present otherUserId)
          || negb (match user with Some _ => true | None => false end)
          || isCreatingConversation)%bool
      then Skipped
      else
        match List.find (isThread p o) conversations with
        | Some existingConversation => SelectedExisting existingConversation
        | None =>
            match sent with
            | Rejected _ => Alerted
            | Resolved _ =>
                match List.find (isThread p o) conversations with
                | Some newConversation => SelectedCreated newConversation
                | None => SelectedTemporary (tempConversation p o now)
                end
            end
        end
  | _, _ => Skipped
  end.
End MessagesPage.

(** A clock for the examples: a timestamp written in decimal digits denotes
    that number. *)
Definition decimalTime (s : string) : Z :=
  fold_left (fun acc c => 10 * acc + (Z.of_nat (nat_of_ascii c) - 48))
            (list_ascii_of_string s) 0.

(** ** Timestamps of the store *)

Module Iso.
(** A timestamp as the API returns it,
    [YYYY-MM-DDTHH:MM:SS.ffffff+00:00]: UTC, with microseconds.  [field]
    reads the digits at a place of it. *)
Definition field (start len : nat) (s : string) : Z :=
  decimalTime (String.substring start len s).

(** The days from 1970-01-01 to a date of the Gregorian calendar. *)
Definition daysFromCivil (year month day : Z) : Z :=
  let y := if month <=? 2 then year - 1 else year in
  let era := y / 400 in
  let yearOfEra := y - era * 400 in
  let shifted := if month >? 2 then month - 3 else month + 9 in
  let dayOfYear := (153 * shifted + 2) / 5 + day - 1 in
  let dayOfEra := yearOfEra * 365 + yearOfEra / 4 - yearOfEra / 100 + dayOfYear in
  era * 146097 + dayOfEra - 719468.

(** The instant a timestamp denotes, in microseconds since the epoch. *)
Definition micros (s : string) : Z :=
  let days := daysFromCivil (field 0 4 s) (field 5 2 s) (field 8 2 s) in
  (((days * 24 + field 11 2 s) * 60 + field 14 2 s) * 60 + field 17 2 s) * 1000000
  + field 20 6 s.

(** [new Date(s).getTime()]: a Date keeps milliseconds, the digits below
    are dropped. *)
Definition getTime (s : string) : Z := micros s / 1000.
End Iso.

(** Concrete values for the examples: Alice writes to Bob about product
    P42. *)
Module Examples.
Definition message (i t text : string) (seen : option string) : ProductMessage.t :=
  {| ProductMessage.id := i;
     ProductMessage.product_id := "P42";
     ProductMessage.sender_id := "alice";
     ProductMessage.recipient_id := "bob";
     ProductMessage.content := text;
     ProductMessage.read_at := seen;
     ProductMessage.created_at := t;
     ProductMessage.sender_name := "Alice";
     ProductMessage.recipient_name := "Bob" |}.

Definition first : ProductMessage.t := message "m1" "1" "Bonjour" None.
Definition second : ProductMessage.t := message "m2" "2" "Toujours disponible ?" None.
Definition third : ProductMessage.t := message "m3" "3" "Merci" None.

(** [first] as the store returns it once Bob has read it. *)
Definition firstRead : ProductMessage.t := message "m1" "1" "Bonjour" (Some "4").

(** The open thread of Bob with Alice on P42. *)
Definition openThread (rows : list ProductMessage.t) : UseProductMessages.Arrival :=
  UseProductMessages.Fetched (Some "P42") (Some "alice") (Some "bob")
    (Resolved rows) (Resolved tt).
(** A conversation of the list view as [getUserConversations] formats it. *)
Definition conversationRow (product other t : string) (unread : Z) : ConversationRow.t :=
  {| ConversationRow.product_id := product;
     ConversationRow.product_title := "Vanille de Sambava";
     ConversationRow.other_user_id := other;
     ConversationRow.other_user_name := "Alice";
     ConversationRow.other_user_verified := true;
     ConversationRow.last_message_content := "Bonjour";
     ConversationRow.last_message_at := t;
     ConversationRow.unread_count := unread;
     ConversationRow.is_buyer := false |}.

Definition withAlice : ProductConversation.t :=
  MessageServiceRead.formatConversation (conversationRow "P42" "alice" "1" 1).
Definition withAliceLater : ProductConversation.t :=
  MessageServiceRead.formatConversation (conversationRow "P42" "alice" "3" 0).
Definition withCarol : ProductConversation.t :=
  MessageServiceRead.formatConversation (conversationRow "P42" "carol" "2" 0).
(** A configured client environment. *)
Definition configured : Supabase.Env :=
  {| Supabase.VITE_SUPABASE_URL := Some "https://example.supabase.co";
     Supabase.VITE_SUPABASE_ANON_KEY := Some "anon-key" |}.

(** An environment without the variables. *)
Definition unconfigured : Supabase.Env :=
  {| Supabase.VITE_SUPABASE_URL := None;
     Supabase.VITE_SUPABASE_ANON_KEY := None |}.

(** The server numbers the messages and stamps them with that number. *)
Definition assign (log : Store.t) : string * string :=
  let n := String (ascii_of_nat (48 + List.length log)) EmptyString in
  ("m" ++ n, n).

(** The realtime client before any subscription. *)
Definition freshClient : Realtime.Client string :=
  {| Realtime.channels := []; Realtime.next_ref := 0; Realtime.available := true |}.

Definition offlineClient : Realtime.Client string :=
  {| Realtime.channels := []; Realtime.next_ref := 0; Realtime.available := false |}.

(** The inserted row of Alice's message to Bob, and of Carol's. *)
Definition rowFrom (i sender : string) : Realtime.Row :=
  {| Realtime.id := i;
     Realtime.product_id := "P42";
     Realtime.sender_id := sender;
     Realtime.recipient_id := "bob";
     Realtime.content := "Bonjour";
     Realtime.read_at := None;
     Realtime.created_at := "1" |}.

Definition inserted (i sender : string) : Realtime.Change :=
  {| Realtime.eventType := Realtime.INSERT; Realtime.new := rowFrom i sender |}.

(** Bob's session; the select finds every message, without the users. *)
Definition bobsWorld : Realtime.World :=
  {| Realtime.currentUser := Some "bob";
     Realtime.selectMessage := fun i =>
       Some {| Realtime.row := rowFrom i "alice";
               Realtime.sender := None;
               Realtime.recipient := None |} |}.
(** A message already in the store. *)
Definition stored : Store.Message :=
  {| Store.id := "m0";
     Store.product_id := "P42";
     Store.sender_id := "bob";
     Store.recipient_id := "alice";
     Store.content := "Bonjour";
     Store.read_at := None;
     Store.created_at := "0" |}.
(** Bob's session when the select of the handler returns nothing. *)
Definition bobsWorldWithoutSelect : Realtime.World :=
  {| Realtime.currentUser := Some "bob";
     Realtime.selectMessage := fun _ => None |}.

(** Bob's open thread with Alice on P42, subscribed in a fresh client. *)
Definition bobsThread : Realtime.Handle * Realtime.Client string :=
  Realtime.subscribeToProductMessages configured "P42" "alice" "onMessage" freshClient.
(** The clock of the server in the examples. *)
Definition serverClock (log : Store.t) : string := "9".

(** Alice's message to Bob, stored and unread. *)
Definition unreadForBob : Store.Message :=
  {| Store.id := "m1";
     Store.product_id := "P42";
     Store.sender_id := "alice";
     Store.recipient_id := "bob";
     Store.content := "Bonjour";
     Store.read_at := None;
     Store.created_at := "1" |}.
(** Alice's row of the [users] table. *)
Definition aliceProfile : Profile.t :=
  {| Profile.id := "alice";
     Profile.email := "alice@example.org";
     Profile.name := "Alice";
     Profile.role := "buyer";
     Profile.phone := None;
     Profile.address := None;
     Profile.avatar := None;
     Profile.verified := true;
     Profile.created_at := Some "1";
     Profile.updated_at := Some "1";
     Profile.setupRequired := false |}.

(** Attempts of [loadUserProfile] that find nothing, and attempts refused
    by a policy. *)
Definition nothingFound (n : nat) : Auth.Attempt :=
  {| Auth.viaService := Resolved None;
     Auth.viaQuery := Resolved None;
     Auth.sessionEmail := Resolved (Some "alice@example.org") |}.


(** Lookups of the user service that find no row, the clock of the browser
    and the other reads of an attempt. *)
Definition noRow (n : nat) : Outcome (option Profile.t) * Outcome (option Profile.t) :=
  (Resolved None, Resolved None).

Definition browserClock (n : nat) : string * string := ("8", "9").

Definition noOtherRead (n : nat) : Outcome (option Profile.t) * Outcome (option string) :=
  (Resolved None, Resolved None).

(** The provider before a sign-in. *)
Definition signedOut : Auth.State :=
  {| Auth.user := None;
     Auth.profile := None;
     Auth.isLoading := true;
     Auth.profileLoading := false |}.

(** A local storage with the session of the client and two other items. *)
Definition browserStorage : list (string * string) :=
  [("supabase.auth.token", "t"); ("cart", "[]");
   ("sb-wfuoqbvnwsjjwuzcnfpw-auth-token", "u"); ("theme", "dark")].

(** Two categories, the first with two subcategories out of order. *)
Definition subcategory (i : string) (order : option Z) : CategoryService.Subcategory :=
  {| CategoryService.sub_id := i;
     CategoryService.sub_category_id := "c1";
     CategoryService.sub_name := i;
     CategoryService.sub_slug := i;
     CategoryService.sub_sort_order := order;
     CategoryService.sub_active := true |}.

Definition category (i : string) (subs : option (list CategoryService.Subcategory))
  : CategoryService.Category :=
  {| CategoryService.id := i;
     CategoryService.name := i;
     CategoryService.slug := i;
     CategoryService.sort_order := 1;
     CategoryService.active := true;
     CategoryService.subcategories := subs |}.

Definition twoCategories : list CategoryService.Category :=
  [category "c1" (Some [subcategory "s2" (Some 2); subcategory "s1" None]);
   category "c2" None].

(** The count query fails for the second category. *)
Definition countOf (categoryId : string) : Outcome (option Z) :=
  if String.eqb categoryId "c1" then Resolved (Some 7)
  else Rejected (Error.Backend "timeout").

(** Products of one category; the first is the product of the page. *)
Definition product (i : string) (sub : option string) (t : string)
  : RelatedProducts.Product :=
  {| RelatedProducts.id := i;
     RelatedProducts.category_id := "c1";
     RelatedProducts.subcategory_id := sub;
     RelatedProducts.created_at := t |}.


(** Orders of the dashboard, with whole amounts. *)
Definition order (i status : string) (amount : Z) : SellerDashboard.Order Z :=
  {| SellerDashboard.order_id := i;
     SellerDashboard.total := amount;
     SellerDashboard.order_currency := "MGA";
     SellerDashboard.order_status := status;
     SellerDashboard.order_created_at := "1";
     SellerDashboard.buyer_name := "Alice" |}.
End Examples.

(** * Properties *)

(** ** Facts about the JavaScript primitives *)

Module JsFacts.

Lemma truthy_false s : Js.truthy s = false <-> s = "".
Proof. destruct s; simpl; split; congruence. Qed.

Section MapFacts.
Context {V : Type}.
Implicit Types (m : Js.Map V) (k : string) (v : V).

Lemma has_In k m : Js.has k m = true <-> In k (Js.keys m).
Proof.
  induction m as [|[k' v'] m IH]; simpl.
  - split; [discriminate | tauto].
  - destruct (String.eqb_spec k k') as [->|Hne].
    + split; auto.
    + rewrite IH. split; [auto | intros [H|H]; [congruence | exact H]].
Qed.

Lemma has_get k m : Js.has k m = true <-> exists v, Js.get k m = Some v.
Proof.
  induction m as [|[k' v'] m IH]; simpl.
  - split; [discriminate | intros [v H]; discriminate].
  - destruct (String.eqb k k'); [split; eauto | exact IH].
Qed.

Lemma keys_set k v m :
  Js.keys (Js.set k v m) = if Js.has k m then Js.keys m else (Js.keys m ++ [k])%list.
Proof.
  induction m as [|[k' v'] m IH]; simpl; [reflexivity|].
  destruct (String.eqb k k'); simpl; [reflexivity|].
  rewrite IH. destruct (Js.has k m); reflexivity.
Qed.

Lemma has_set_same k v m : Js.has k (Js.set k v m) = true.
Proof.
  apply has_In. rewrite keys_set. destruct (Js.has k m) eqn:E.
  - now apply has_In.
  - apply in_or_app. right. now left.
Qed.

Lemma In_keys_set k k' v m : In k (Js.keys m) -> In k (Js.keys (Js.set k' v m)).
Proof.
  intros H. rewrite keys_set. destruct (Js.has k' m); [exact H|].
  apply in_or_app. now left.
Qed.

Lemma NoDup_keys_set k v m : NoDup (Js.keys m) -> NoDup (Js.keys (Js.set k v m)).
Proof.
  intros H. rewrite keys_set. destruct (Js.has k m) eqn:E; [exact H|].
  apply NoDup_app; [exact H | repeat constructor; simpl; tauto |].
  intros x Hx [<-|[]]. apply has_In in Hx. congruence.
Qed.

Lemma get_set_same k v m : Js.get k (Js.set k v m) = Some v.
Proof.
  induction m as [|[k' v'] m IH]; simpl.
  - now rewrite String.eqb_refl.
  - destruct (String.eqb k k') eqn:E; simpl; rewrite E; [reflexivity | exact IH].
Qed.

Lemma get_set_other k k' v m : k <> k' -> Js.get k (Js.set k' v m) = Js.get k m.
Proof.
  intros Hne. induction m as [|[k0 v0] m IH]; simpl.
  - destruct (String.eqb_spec k k'); [contradiction | reflexivity].
  - destruct (String.eqb_spec k' k0) as [->|Hne0]; simpl.
    + destruct (String.eqb_spec k k0); [contradiction | reflexivity].
    + now rewrite IH.
Qed.

Lemma get_In_values k v m : Js.get k m = Some v -> In v (Js.values m).
Proof.
  induction m as [|[k' v'] m IH]; simpl; [discriminate|].
  destruct (String.eqb k k'); [intros [= ->]; now left | auto].
Qed.

Lemma keyed_set key v m : Js.keyed key m -> Js.keyed key (Js.set (key v) v m).
Proof.
  unfold Js.keyed. induction m as [|[k' v'] m IH]; simpl; intros H.
  - repeat constructor.
  - inversion H as [|? ? Hhd Htl]; subst. simpl in Hhd.
    destruct (String.eqb_spec (key v) k') as [Heq|Hne].
    + constructor; [simpl; congruence | exact Htl].
    + constructor; [exact Hhd | auto].
Qed.

Lemma keyed_keys key m : Js.keyed key m -> Js.keys m = map key (Js.values m).
Proof.
  unfold Js.keyed, Js.keys, Js.values. induction 1 as [|[k v] m Hhd _ IH]; simpl.
  - reflexivity.
  - simpl in Hhd. now rewrite Hhd, IH.
Qed.
End MapFacts.

Section SortFacts.
Context {A : Type} (time : A -> Z).

Let cmp (a b : A) : Z := time a - time b.
Let le (a b : A) : Prop := time a <= time b.

Lemma insert_perm x l : Permutation (x :: l) (Js.insert cmp x l).
Proof.
  induction l as [|y l IH]; simpl; [constructor; constructor|].
  destruct (cmp x y <=? 0); [apply Permutation_refl|].
  eapply perm_trans; [apply perm_swap|]. now constructor.
Qed.

Lemma sort_perm l : Permutation l (Js.sort cmp l).
Proof.
  induction l as [|x l IH]; simpl; [constructor|].
  eapply perm_trans; [|apply insert_perm]. now constructor.
Qed.

Lemma insert_sorted x l : StronglySorted le l -> StronglySorted le (Js.insert cmp x l).
Proof.
  induction 1 as [|y l Hs IH Hall]; simpl.
  - repeat constructor.
  - destruct (Z.leb_spec (cmp x y) 0) as [Hle|Hgt]; unfold cmp in *.
    + constructor; [now constructor|].
      constructor; [unfold le; lia|].
      eapply Forall_impl; [|exact Hall]. unfold le. intros; lia.
    + constructor; [exact IH|].
      eapply Permutation_Forall; [apply insert_perm|].
      constructor; [unfold le; lia | exact Hall].
Qed.

Lemma sort_sorted l : StronglySorted le (Js.sort cmp l).
Proof.
  induction l as [|x l IH]; simpl; [constructor | now apply insert_sorted].
Qed.
End SortFacts.

End JsFacts.

(** ** The cache of an open thread *)

Module CacheFacts.
Import UseProductMessages ProductMessage JsFacts.

Lemma some_sameId prev m :
  Js.some (fun msg => String.eqb (id msg) (id m)) prev = true <-> In (id m) (map id prev).
Proof.
  unfold Js.some. rewrite existsb_exists, in_map_iff. split.
  - intros (x & Hin & Heq). apply String.eqb_eq in Heq. eauto.
  - intros (x & Heq & Hin). exists x. split; [exact Hin | now apply String.eqb_eq].
Qed.

Lemma occurrences_absent i l : ~ In i (map id l) -> occurrences i l = 0%nat.
Proof.
  unfold occurrences. induction l as [|x l IH]; simpl; intros H; [reflexivity|].
  destruct (String.eqb_spec (id x) i) as [Heq|Hne]; [tauto|].
  apply IH. tauto.
Qed.

Lemma occurrences_once i l :
  NoDup (map id l) -> In i (map id l) -> occurrences i l = 1%nat.
Proof.
  induction l as [|x l IH]; simpl; intros Hnd Hin; [contradiction|].
  inversion Hnd as [|? ? Hx Hl]; subst. unfold occurrences in *. simpl.
  destruct (String.eqb_spec (id x) i) as [Heq|Hne].
  - simpl. f_equal. apply (occurrences_absent i l). now rewrite <- Heq.
  - apply IH; [exact Hl | destruct Hin; [contradiction | assumption]].
Qed.

Section WithClock.
Variable getTime : string -> Z.

Let enter (m : Js.Map ProductMessage.t) (msg : ProductMessage.t) := Js.set (id msg) msg m.

Lemma entered_keyed data m :
  Js.keyed id m -> NoDup (Js.keys m) ->
  Js.keyed id (fold_left enter data m) /\ NoDup (Js.keys (fold_left enter data m)).
Proof.
  revert m. induction data as [|x data IH]; simpl; intros m Hk Hnd; [auto|].
  apply IH; [now apply keyed_set | now apply NoDup_keys_set].
Qed.

Lemma entered_keeps_keys data k m :
  In k (Js.keys m) -> In k (Js.keys (fold_left enter data m)).
Proof.
  revert m. induction data as [|x data IH]; simpl; intros m H; [exact H|].
  apply IH. now apply In_keys_set.
Qed.

Lemma entered_has_ids data x m :
  In x data -> In (id x) (Js.keys (fold_left enter data m)).
Proof.
  revert m. induction data as [|y data IH]; simpl; intros m Hin; [contradiction|].
  destruct Hin as [->|Hin].
  - apply entered_keeps_keys. apply has_In. apply has_set_same.
  - now apply IH.
Qed.

Lemma entered_get_untouched data k m :
  ~ In k (map id data) -> Js.get k (fold_left enter data m) = Js.get k m.
Proof.
  revert m. induction data as [|y data IH]; simpl; intros m H; [reflexivity|].
  rewrite IH by tauto. unfold enter. apply get_set_other. intros ->. tauto.
Qed.

Lemma uniqueMessages_inv data :
  Js.keyed id (uniqueMessages data) /\ NoDup (Js.keys (uniqueMessages data)).
Proof. apply entered_keyed; constructor. Qed.

Lemma fetchedMessages_perm data :
  Permutation (Js.values (uniqueMessages data)) (fetchedMessages getTime data).
Proof. unfold fetchedMessages. apply (sort_perm (fun m => getTime (created_at m))). Qed.

Lemma fetchedMessages_ids_NoDup data : NoDup (map id (fetchedMessages getTime data)).
Proof.
  destruct (uniqueMessages_inv data) as [Hk Hnd].
  eapply Permutation_NoDup.
  - apply Permutation_map. apply fetchedMessages_perm.
  - now rewrite <- (keyed_keys id).
Qed.

Lemma fetchedMessages_has_ids data x :
  In x data -> In (id x) (map id (fetchedMessages getTime data)).
Proof.
  intros Hin. destruct (uniqueMessages_inv data) as [Hk _].
  eapply Permutation_in.
  - apply Permutation_map. apply fetchedMessages_perm.
  - rewrite <- (keyed_keys id) by exact Hk. now apply entered_has_ids.
Qed.

Lemma fetchedMessages_last_wins before m after :
  ~ In (id m) (map id after) ->
  In m (fetchedMessages getTime (before ++ m :: after)).
Proof.
  intros H. eapply Permutation_in; [apply fetchedMessages_perm|].
  apply (get_In_values (id m)). unfold uniqueMessages.
  rewrite fold_left_app. simpl.
  change (fun (m0 : Js.Map t) (msg : t) => Js.set (id msg) msg m0) with enter.
  rewrite entered_get_untouched by exact H. apply get_set_same.
Qed.

Lemma mergeNewMessage_present prev m :
  In (id m) (map id prev) -> mergeNewMessage getTime prev m = prev.
Proof.
  intros H. unfold mergeNewMessage. apply some_sameId in H. now rewrite H.
Qed.

Lemma mergeNewMessage_fresh prev m :
  ~ In (id m) (map id prev) ->
  Permutation (prev ++ [m]) (mergeNewMessage getTime prev m).
Proof.
  intros H. unfold mergeNewMessage.
  destruct (Js.some _ prev) eqn:E; [apply some_sameId in E; contradiction|].
  apply (sort_perm (fun m => getTime (created_at m))).
Qed.

Lemma mergeNewMessage_has_id prev m :
  In (id m) (map id (mergeNewMessage getTime prev m)).
Proof.
  destruct (in_dec string_dec (id m) (map id prev)) as [Hin|Hout].
  - now rewrite mergeNewMessage_present.
  - eapply Permutation_in; [apply Permutation_map, mergeNewMessage_fresh, Hout|].
    rewrite map_app. apply in_or_app. right. now left.
Qed.

Lemma mergeNewMessage_ids_NoDup prev m :
  NoDup (map id prev) -> NoDup (map id (mergeNewMessage getTime prev m)).
Proof.
  intros Hnd. destruct (in_dec string_dec (id m) (map id prev)) as [Hin|Hout].
  - now rewrite mergeNewMessage_present.
  - eapply Permutation_NoDup; [apply Permutation_map, mergeNewMessage_fresh, Hout|].
    rewrite map_app. simpl. apply NoDup_app; [exact Hnd | repeat constructor; simpl; tauto|].
    intros x Hx [<-|[]]. contradiction.
Qed.

Lemma mergeNewMessage_chronological prev m :
  chronological getTime prev -> chronological getTime (mergeNewMessage getTime prev m).
Proof.
  intros H. unfold mergeNewMessage. destruct (Js.some _ prev); [exact H|].
  apply (sort_sorted (fun m => getTime (created_at m))).
Qed.

Lemma fetchedMessages_chronological data :
  chronological getTime (fetchedMessages getTime data).
Proof. apply (sort_sorted (fun m => getTime (created_at m))). Qed.

(** What every state of the hook satisfies: distinct ids, in order. *)
Lemma step_invariant st a :
  NoDup (map id (messages st)) /\ chronological getTime (messages st) ->
  NoDup (map id (messages (step getTime st a)))
  /\ chronological getTime (messages (step getTime st a)).
Proof.
  intros [Hnd Hch]. destruct a as [p o u fetched marked|newMessage]; simpl.
  - unfold fetchMessages.
    destruct (negb (present p) || negb (present o))%bool; simpl.
    + split; constructor.
    + destruct fetched as [data|err]; simpl; [|auto].
      assert (NoDup (map id (fetchedMessages getTime data))
              /\ chronological getTime (fetchedMessages getTime data)) as Hf
        by (split; [apply fetchedMessages_ids_NoDup | apply fetchedMessages_chronological]).
      destruct u as [?|]; [destruct marked|]; exact Hf.
  - split; [now apply mergeNewMessage_ids_NoDup | now apply mergeNewMessage_chronological].
Qed.

Lemma run_invariant arrivals st :
  NoDup (map id (messages st)) /\ chronological getTime (messages st) ->
  NoDup (map id (messages (run getTime arrivals st)))
  /\ chronological getTime (messages (run getTime arrivals st)).
Proof.
  revert st. induction arrivals as [|a arrivals IH]; simpl; intros st H; [exact H|].
  apply IH. now apply step_invariant.
Qed.

Lemma initial_invariant :
  NoDup (map id (messages initial)) /\ chronological getTime (messages initial).
Proof. split; constructor. Qed.
End WithClock.
End CacheFacts.

(** ** The conversation list *)

Module ConversationFacts.
Import UseConversations ProductConversation JsFacts.

Lemma NoDup_map_coarser {A B C : Type} (f : A -> B) (g : A -> C) (l : list A) :
  (forall x y, g x = g y -> f x = f y) -> NoDup (map f l) -> NoDup (map g l).
Proof.
  intros Hfg. induction l as [|x l IH]; simpl; intros H; [constructor|].
  inversion H as [|? ? Hx Hl]; subst. constructor; [|auto].
  rewrite in_map_iff. intros (y & Heq & Hin). apply Hx.
  rewrite in_map_iff. exists y. split; [now apply Hfg | exact Hin].
Qed.

Lemma pairOf_conversationKey x y : pairOf x = pairOf y -> conversationKey x = conversationKey y.
Proof. unfold pairOf, conversationKey. intros [= -> ->]. reflexivity. Qed.

Lemma append_same_length (p1 p2 s1 s2 : string) :
  String.length p1 = String.length p2 -> p1 ++ s1 = p2 ++ s2 -> p1 = p2 /\ s1 = s2.
Proof.
  revert p2. induction p1 as [|a p1 IH]; intros [|b p2]; simpl; try discriminate.
  - auto.
  - intros [= Hlen] [= -> Happ]. destruct (IH p2 Hlen Happ) as [-> ->]. auto.
Qed.

(** Product ids of one length (UUIDs): the key determines the pair. *)
Lemma conversationKey_pairOf x y :
  String.length (product_id x) = String.length (product_id y) ->
  conversationKey x = conversationKey y -> pairOf x = pairOf y.
Proof.
  unfold conversationKey, pairOf. intros Hlen Hkey.
  destruct (append_same_length _ _ _ _ Hlen Hkey) as [-> Hrest].
  simpl in Hrest. injection Hrest as ->. reflexivity.
Qed.

Section WithClock.
Variable getTime : string -> Z.

Lemma keepLatest_inv m conv :
  Js.keyed conversationKey m /\ NoDup (Js.keys m) ->
  Js.keyed conversationKey (keepLatest getTime m conv)
  /\ NoDup (Js.keys (keepLatest getTime m conv)).
Proof.
  intros [Hk Hnd]. unfold keepLatest.
  destruct (negb (Js.has (conversationKey conv) m) || _)%bool; [|auto].
  split; [now apply keyed_set | now apply NoDup_keys_set].
Qed.

Lemma keepLatest_keeps_keys m conv k :
  In k (Js.keys m) -> In k (Js.keys (keepLatest getTime m conv)).
Proof.
  intros H. unfold keepLatest.
  destruct (negb (Js.has (conversationKey conv) m) || _)%bool; [|exact H].
  now apply In_keys_set.
Qed.

Lemma keepLatest_has_key m conv :
  In (conversationKey conv) (Js.keys (keepLatest getTime m conv)).
Proof.
  unfold keepLatest. destruct (Js.has (conversationKey conv) m) eqn:E; simpl.
  - destruct (match Js.get (conversationKey conv) m with Some _ => _ | None => _ end).
    + apply has_In, has_set_same.
    + now apply has_In.
  - apply has_In, has_set_same.
Qed.

Lemma kept_inv data m :
  Js.keyed conversationKey m /\ NoDup (Js.keys m) ->
  Js.keyed conversationKey (fold_left (keepLatest getTime) data m)
  /\ NoDup (Js.keys (fold_left (keepLatest getTime) data m)).
Proof.
  revert m. induction data as [|c data IH]; simpl; intros m H; [exact H|].
  apply IH. now apply keepLatest_inv.
Qed.

Lemma kept_keeps_keys data m k :
  In k (Js.keys m) -> In k (Js.keys (fold_left (keepLatest getTime) data m)).
Proof.
  revert m. induction data as [|c data IH]; simpl; intros m H; [exact H|].
  apply IH. now apply keepLatest_keeps_keys.
Qed.

Lemma kept_has_key data m conv :
  In conv data -> In (conversationKey conv) (Js.keys (fold_left (keepLatest getTime) data m)).
Proof.
  revert m. induction data as [|c data IH]; simpl; intros m Hin; [contradiction|].
  destruct Hin as [->|Hin]; [|now apply IH].
  apply kept_keeps_keys, keepLatest_has_key.
Qed.

Lemma uniqueConversations_inv data :
  Js.keyed conversationKey (uniqueConversations getTime data)
  /\ NoDup (Js.keys (uniqueConversations getTime data)).
Proof. apply kept_inv. split; constructor. Qed.

Lemma unique_keys_NoDup data :
  NoDup (map conversationKey (Js.values (uniqueConversations getTime data))).
Proof.
  destruct (uniqueConversations_inv data) as [Hk Hnd].
  now rewrite <- (keyed_keys conversationKey).
Qed.

Lemma unique_pairs_NoDup data :
  NoDup (map pairOf (Js.values (uniqueConversations getTime data))).
Proof.
  apply (NoDup_map_coarser conversationKey pairOf).
  - apply pairOf_conversationKey.
  - apply unique_keys_NoDup.
Qed.

Lemma fetchConversations_pairs_NoDup user fetched st :
  NoDup (map pairOf (conversations st)) ->
  NoDup (map pairOf (conversations (fetchConversations getTime user fetched st))).
Proof.
  intros H. unfold fetchConversations.
  destruct user as [u|]; [|constructor].
  destruct fetched as [data|err]; simpl; [apply unique_pairs_NoDup | exact H].
Qed.

Lemma run_pairs_NoDup fetches st :
  NoDup (map pairOf (conversations st)) ->
  NoDup (map pairOf (conversations (run getTime fetches st))).
Proof.
  revert st. induction fetches as [|f fetches IH]; simpl; intros st H; [exact H|].
  apply IH. now apply fetchConversations_pairs_NoDup.
Qed.
End WithClock.
End ConversationFacts.

(** ** The realtime subscriptions *)

Module RealtimeFacts.
Import Realtime.

Section WithCallbacks.
Context {Callback : Type}.
Implicit Types (c : Client Callback) (b : Binding Callback) (i : Invocation Callback).

Lemma onProductInsert_called w otherUserId r m :
  onProductInsert w otherUserId r = Some m ->
  exists U found,
    currentUser w = Some U /\ between U otherUserId r
    /\ selectMessage w (id r) = Some found /\ m = decorate found.
Proof.
  unfold onProductInsert, between.
  destruct (currentUser w) as [U|]; [|discriminate].
  destruct (String.eqb_spec (sender_id r) U) as [Hs|Hs];
    destruct (String.eqb_spec (recipient_id r) otherUserId) as [Hr|Hr];
    destruct (String.eqb_spec (sender_id r) otherUserId) as [Hs'|Hs'];
    destruct (String.eqb_spec (recipient_id r) U) as [Hr'|Hr'];
    simpl; try discriminate;
    (destruct (selectMessage w (id r)) as [found|]; [|discriminate]);
    intros [= <-]; exists U, found; tauto.
Qed.

Lemma onProductInsert_other_counterparty w otherUserId r U counterparty :
  currentUser w = Some U -> counterparty <> otherUserId ->
  between U counterparty r ->
  onProductInsert w otherUserId r = None.
Proof.
  intros HU Hne Hpair.
  destruct (onProductInsert w otherUserId r) as [m|] eqn:E; [|reflexivity].
  apply onProductInsert_called in E.
  destruct E as (U' & found & HU' & Hpair' & _). exfalso.
  rewrite HU in HU'. injection HU' as <-.
  unfold between in *. destruct Hpair as [[]|[]]; destruct Hpair' as [[]|[]]; congruence.
Qed.

Lemma notify_via w ch rb i : In i (notify w ch rb) -> via i = fst rb.
Proof.
  unfold notify.
  destruct (eventMatches _ _ && rowMatches _ _)%bool; [|contradiction].
  destruct (handler (snd rb)) as [cb|o cb].
  - intros [<-|[]]. reflexivity.
  - destruct (onProductInsert w o (new ch)); [|contradiction].
    intros [<-|[]]. reflexivity.
Qed.

Lemma invokedOn_channel w c ch ref i :
  In i (invokedOn (Channel ref) (deliver w c ch)) ->
  exists b, In (ref, b) (channels c) /\ In i (notify w ch (ref, b)).
Proof.
  unfold invokedOn, deliver. rewrite filter_In, in_flat_map.
  intros [([r b] & Hin & Hi) Hvia].
  apply Nat.eqb_eq in Hvia. pose proof (notify_via _ _ _ _ Hi) as Hr. simpl in Hr.
  exists b. rewrite <- Hvia, Hr. split; [exact Hin | exact Hi].
Qed.

Lemma wellFormed_fresh c b : wellFormed c = true -> ~ In (next_ref c, b) (channels c).
Proof.
  unfold wellFormed. rewrite forallb_forall. intros H Hin.
  apply H in Hin. simpl in Hin. apply Nat.ltb_lt in Hin. lia.
Qed.

Lemma join_result b c :
  (available c = false /\ exists e, join b c = Rejected e)
  \/ exists c', join b c = Resolved (next_ref c, c')
              /\ channels c' = (channels c ++ [(next_ref c, b)])%list.
Proof.
  unfold join. destruct (available c); [right | left; eauto].
  eexists. split; reflexivity.
Qed.

Lemma subscribeToProductMessages_result env productId otherUserId callback c h c' :
  subscribeToProductMessages env productId otherUserId callback c = (h, c') ->
  (h = Inert /\ c' = c)
  \/ (h = Channel (next_ref c)
      /\ channels c' =
         (channels c ++
          [(next_ref c,
            {| topic := "product-messages-" ++ productId;
               event := OnInsert;
               filter := OfProduct productId;
               handler := BetweenUsers otherUserId callback |})])%list).
Proof.
  unfold subscribeToProductMessages.
  destruct (Supabase.checkSupabaseConfig env); [|intros [= <- <-]; auto].
  match goal with |- context [join ?b c] => destruct (join_result b c) as [[_ [e ->]]|(c0 & -> & Hc0)] end.
  - intros [= <- <-]; auto.
  - intros [= <- <-]; auto.
Qed.

Lemma filter_none {A : Type} (f : A -> bool) (l : list A) :
  (forall x, In x l -> f x = false) -> List.filter f l = [].
Proof.
  induction l as [|x l IH]; simpl; intros H; [reflexivity|].
  rewrite (H x) by now left. apply IH. intros y Hy. apply H. now right.
Qed.

Lemma filter_all {A : Type} (f : A -> bool) (l : list A) :
  (forall x, In x l -> f x = true) -> List.filter f l = l.
Proof.
  induction l as [|x l IH]; simpl; intros H; [reflexivity|].
  rewrite (H x) by now left. f_equal. apply IH. intros y Hy. apply H. now right.
Qed.

(** Through a channel that has just been joined come exactly the calls of
    its own binding. *)
Lemma invokedOn_joined w c c' ch b :
  wellFormed c = true ->
  channels c' = (channels c ++ [(next_ref c, b)])%list ->
  invokedOn (Channel (next_ref c)) (deliver w c' ch) = notify w ch (next_ref c, b).
Proof.
  intros Hwf Hch. unfold invokedOn, deliver. rewrite Hch, flat_map_app, filter_app.
  simpl. rewrite app_nil_r.
  rewrite filter_none, filter_all; [reflexivity | |].
  - intros i Hi. apply notify_via in Hi. simpl in Hi. now apply Nat.eqb_eq.
  - intros i Hi. apply in_flat_map in Hi. destruct Hi as ([r b'] & Hin & Hi).
    apply notify_via in Hi. simpl in Hi. apply Nat.eqb_neq. rewrite Hi.
    unfold wellFormed in Hwf. rewrite forallb_forall in Hwf.
    apply Hwf in Hin. simpl in Hin. apply Nat.ltb_lt in Hin. lia.
Qed.

Lemma onProductInsert_between w otherUserId r U :
  currentUser w = Some U -> between U otherUserId r ->
  onProductInsert w otherUserId r
  = match selectMessage w (id r) with
    | Some found => Some (decorate found)
    | None => None
    end.
Proof.
  intros HU Hpair. unfold onProductInsert. rewrite HU.
  destruct Hpair as [[Hs Hr]|[Hs Hr]]; rewrite Hs, Hr, !String.eqb_refl; simpl;
    [reflexivity | now rewrite orb_true_r].
Qed.

Lemma setupFails_subscribeToUserMessages env userId callback c :
  setupFails env c = true -> subscribeToUserMessages env userId callback c = (Inert, c).
Proof.
  unfold setupFails, subscribeToUserMessages, Supabase.checkSupabaseConfig, join.
  destruct (Supabase.isSupabaseConfigured env); simpl; [|reflexivity].
  destruct (available c); simpl; [discriminate | reflexivity].
Qed.

Lemma setupFails_subscribeToProductMessages env productId otherUserId callback c :
  setupFails env c = true ->
  subscribeToProductMessages env productId otherUserId callback c = (Inert, c).
Proof.
  unfold setupFails, subscribeToProductMessages, Supabase.checkSupabaseConfig, join.
  destruct (Supabase.isSupabaseConfigured env); simpl; [|reflexivity].
  destruct (available c); simpl; [discriminate | reflexivity].
Qed.
End WithCallbacks.
End RealtimeFacts.

(** ** The read state of the store *)

Module StoreFacts.
Import Store.

Lemma unreadFrom_setRead user other product now m :
  unreadFrom user other product (setRead now m) = false.
Proof. unfold unreadFrom, setRead. simpl. now rewrite andb_false_r. Qed.

Lemma unreadFrom_after user other product now m :
  unreadFrom user other product
    (if unreadFrom user other product m then setRead now m else m) = false.
Proof.
  destruct (unreadFrom user other product m) eqn:E;
    [apply unreadFrom_setRead | exact E].
Qed.

Lemma markRead_leaves_none now user other product log :
  List.filter (unreadFrom user other product) (snd (markRead now user other product log)) = [].
Proof.
  simpl. induction log as [|m log IH]; simpl; [reflexivity|].
  now rewrite unreadFrom_after.
Qed.

Lemma markRead_nothing_to_do now user other product log :
  List.filter (unreadFrom user other product) log = [] ->
  markRead now user other product log = (0%nat, log).
Proof.
  unfold markRead. intros H. rewrite H. simpl. f_equal.
  induction log as [|m log IH]; simpl in *; [reflexivity|].
  destruct (unreadFrom user other product m); [discriminate|].
  f_equal. now apply IH.
Qed.

Lemma markRead_again now1 now2 user other product log :
  markRead now2 user other product (snd (markRead now1 user other product log))
  = (0%nat, snd (markRead now1 user other product log)).
Proof. apply markRead_nothing_to_do, markRead_leaves_none. Qed.
End StoreFacts.

(** ** Scenarios: the definitions at work *)

Module Scenarios.

(** Alice sends " Bonjour " to Bob about P42 from the open thread: the
    trimmed message is stored under the id and time of the server. *)
Example alice_sends_bonjour :
  UseProductMessages.sendMessage (Store.send_product_message Examples.assign "alice")
    Examples.configured (Some "P42") (Some "bob") (Some "alice") " Bonjour "
    UseProductMessages.initial []
  = (Resolved (Some {| Store.id := "m0";
                       Store.product_id := "P42";
                       Store.sender_id := "alice";
                       Store.recipient_id := "bob";
                       Store.content := "Bonjour";
                       Store.read_at := None;
                       Store.created_at := "0" |}),
     UseProductMessages.initial,
     [{| Store.id := "m0";
         Store.product_id := "P42";
         Store.sender_id := "alice";
         Store.recipient_id := "bob";
         Store.content := "Bonjour";
         Store.read_at := None;
         Store.created_at := "0" |}]).
Proof. reflexivity. Qed.

(** A rejected send is recorded in the state of the hook and rethrown. *)
Example alice_writes_to_herself :
  UseProductMessages.sendMessage (Store.send_product_message Examples.assign "alice")
    Examples.configured (Some "P42") (Some "alice") (Some "alice") "Bonjour"
    UseProductMessages.initial []
  = (Rejected Error.InvalidSender,
     {| UseProductMessages.messages := [];
        UseProductMessages.loading := true;
        UseProductMessages.error := Some "InvalidSender" |},
     []).
Proof. reflexivity. Qed.

(** The service called directly with blank content reaches the store, which
    refuses it. *)
Example blank_content_at_the_store :
  MessageService.sendProductMessage (Store.send_product_message Examples.assign "alice")
    Examples.configured "P42" "bob" "   " []
  = (Rejected Error.EmptyContent, []).
Proof. reflexivity. Qed.

(** Bob opens the thread: the unread count falls from 1 to 0. *)
Example bob_reads_the_thread :
  Store.countUnread "bob" [Examples.unreadForBob] = 1%nat
  /\ Store.markRead "9" "bob" "alice" "P42" [Examples.unreadForBob]
     = (1%nat, [Store.setRead "9" Examples.unreadForBob])
  /\ Store.countUnread "bob"
       (snd (Store.markRead "9" "bob" "alice" "P42" [Examples.unreadForBob])) = 0%nat.
Proof. repeat split. Qed.

(** Alice's insert reaches Bob's thread; Carol's insert on the same product
    does not. *)
Example alice_reaches_bob_carol_does_not :
  map Realtime.called
      (Realtime.deliver Examples.bobsWorld (snd Examples.bobsThread)
         (Examples.inserted "m1" "alice")) = ["onMessage"]
  /\ Realtime.deliver Examples.bobsWorld (snd Examples.bobsThread)
       (Examples.inserted "m2" "carol") = [].
Proof. split; reflexivity. Qed.

(** A late message takes its chronological place. *)
Example late_message_in_place :
  UseProductMessages.mergeNewMessage decimalTime
    [Examples.first; Examples.third] Examples.second
  = [Examples.first; Examples.second; Examples.third].
Proof. reflexivity. Qed.

(** Two rows for one pair: the later one is kept, at the place of the
    first. *)
Example later_conversation_kept :
  UseConversations.conversations
    (UseConversations.fetchConversations decimalTime (Some "bob")
       (Resolved [Examples.withAlice; Examples.withCarol; Examples.withAliceLater])
       UseConversations.initial)
  = [Examples.withAliceLater; Examples.withCarol].
Proof. reflexivity. Qed.

(** From the rows of the backend to the list of the hook; an unconfigured
    client keeps the list it had and records the error. *)
Example conversations_from_rows :
  UseConversations.conversations
    (UseConversations.fetchConversations decimalTime (Some "bob")
       (MessageServiceRead.getUserConversations Examples.configured
          (Resolved (Some [Examples.conversationRow "P42" "alice" "1" 1;
                           Examples.conversationRow "P42" "carol" "2" 0])))
       UseConversations.initial)
  = [Examples.withAlice; Examples.withCarol]
  /\ UseConversations.conversations
       (UseConversations.fetchConversations decimalTime (Some "bob")
          (MessageServiceRead.getUserConversations Examples.unconfigured
             (Resolved (Some [Examples.conversationRow "P42" "alice" "1" 1])))
          UseConversations.initial)
     = [].
Proof. split; reflexivity. Qed.

Example trim_examples :
  Js.trim "  a b  " = "a b" /\ Js.trim "   " = "" /\ Js.trim "" = "".
Proof. repeat split. Qed.
End Scenarios.

(** ** Maps and sorting *)

Module CollectionLaws.
Import JsFacts.

Section MapLaws.
Context {V : Type}.
Implicit Types (m : Js.Map V) (k : string) (v : V).

Lemma set_fresh k v m : Js.has k m = false -> Js.set k v m = (m ++ [(k, v)])%list.
Proof.
  induction m as [|[k' v'] m IH]; simpl; [reflexivity|].
  destruct (String.eqb k k'); [discriminate|]. intros H. now rewrite IH.
Qed.

Lemma values_set_from k v m x :
  In x (Js.values (Js.set k v m)) -> x = v \/ In x (Js.values m).
Proof.
  unfold Js.values. induction m as [|[k' v'] m IH]; simpl.
  - intros [<-|[]]. now left.
  - destruct (String.eqb k k'); simpl.
    + intros [<-|H]; auto.
    + intros [<-|H]; [auto|]. destruct (IH H); auto.
Qed.

Lemma get_keyed key k v m : Js.keyed key m -> Js.get k m = Some v -> key v = k.
Proof.
  unfold Js.keyed. induction 1 as [|[k' v'] m Hhd _ IH]; simpl; [discriminate|].
  destruct (String.eqb_spec k k') as [->|Hne]; [|exact IH].
  intros [= <-]. now symmetry.
Qed.

Lemma get_absent k m : Js.has k m = false -> Js.get k m = None.
Proof.
  induction m as [|[k' v'] m IH]; simpl; [reflexivity|].
  destruct (String.eqb k k'); [discriminate | exact IH].
Qed.
End MapLaws.

Section SortLaws.
Context {A : Type} (time : A -> Z).

End SortLaws.
End CollectionLaws.

(** ** Where a message lands in the cache *)

Module OrderFacts.
Import UseProductMessages ProductMessage JsFacts CollectionLaws.

Lemma same_id_same_message (l : list ProductMessage.t) a b :
  NoDup (map id l) -> In a l -> In b l -> id a = id b -> a = b.
Proof.
  induction l as [|x l IH]; simpl; intros H Ha Hb Hid; [contradiction|].
  inversion H as [|? ? Hx Hl]; subst.
  destruct Ha as [->|Ha]; destruct Hb as [->|Hb]; auto.
  - exfalso. apply Hx. rewrite Hid. now apply in_map.
  - exfalso. apply Hx. rewrite <- Hid. now apply in_map.
Qed.


Section WithClock.
Variable getTime : string -> Z.




Lemma fetchMessages_stores productId otherUserId user marked data st :
  present productId = true -> present otherUserId = true ->
  messages (fetchMessages getTime productId otherUserId user (Resolved data) marked st)
  = fetchedMessages getTime data.
Proof.
  intros Hp Ho. unfold fetchMessages. rewrite Hp, Ho. simpl.
  destruct user; [destruct marked|]; reflexivity.
Qed.

Lemma entered_values_from data (acc : Js.Map ProductMessage.t) x :
  In x (Js.values (fold_left (fun m msg => Js.set (id msg) msg m) data acc)) ->
  In x (Js.values acc) \/ In x data.
Proof.
  revert acc. induction data as [|y data IH]; simpl; intros acc H; [auto|].
  destruct (IH _ H) as [H'|H']; [|auto].
  destruct (values_set_from _ _ _ _ H') as [->|H'']; auto.
Qed.

Lemma fetchedMessages_from_batch data x :
  In x (fetchedMessages getTime data) -> In x data.
Proof.
  intros H.
  apply Permutation_in with (l' := Js.values (uniqueMessages data)) in H;
    [|apply Permutation_sym, CacheFacts.fetchedMessages_perm].
  destruct (entered_values_from data Js.empty x H) as [[]|H']. exact H'.
Qed.

(** A fetch that succeeds puts in the cache the rows of the batch, the last
    row of an id alone standing for it. *)
Lemma fetchMessages_rebuilds productId otherUserId user marked before m after st :
  present productId = true -> present otherUserId = true ->
  ~ In (id m) (map id after) ->
  let cache :=
    messages (fetchMessages getTime productId otherUserId user
                (Resolved (before ++ m :: after)%list) marked st) in
  In m cache
  /\ occurrences (id m) cache = 1%nat
  /\ (forall x, In x cache -> id x = id m -> x = m)
  /\ (forall x, In x cache -> In x (before ++ m :: after)%list).
Proof.
  intros Hp Ho Hlast cache. subst cache.
  rewrite (fetchMessages_stores _ _ _ _ _ _ Hp Ho).
  assert (In m (fetchedMessages getTime (before ++ m :: after)%list)) as Hin
    by now apply CacheFacts.fetchedMessages_last_wins.
  split; [exact Hin|]. split; [|split].
  - apply CacheFacts.occurrences_once.
    + apply CacheFacts.fetchedMessages_ids_NoDup.
    + now apply in_map.
  - intros x Hx Hid.
    apply (same_id_same_message (fetchedMessages getTime (before ++ m :: after)%list));
      auto using CacheFacts.fetchedMessages_ids_NoDup.
  - intros x. apply fetchedMessages_from_batch.
Qed.

End WithClock.
End OrderFacts.

(** * The claims *)

Module Claims.
Import UseProductMessages ProductMessage.

(** C2 (amended).  Realtime push: a message whose id is already cached is
    discarded on arrival, so the cache (and the whole state of the hook) stays
    as it was; pushing a message a second time changes nothing, and in every
    state the hook can reach the id then occurs exactly once.  Bulk fetch:
    the cache is rebuilt from the fetched rows; every fetched id occurs
    exactly once, and the entry kept for an id is the last fetched row with
    that id.  So after [fetchMessages] has resolved for an open thread,
    whatever the cache held before, the cache holds rows of the batch only,
    the last row [m] of an id is in it and is the one entry with that id, and
    an entry cached before under that id, if it is another value, is gone. *)
Theorem cache_dedup_by_id (getTime : string -> Z) :
  (forall prev m,
      Js.some (fun msg => String.eqb (id msg) (id m)) prev = true ->
      mergeNewMessage getTime prev m = prev)
  /\ (forall st m,
      In (id m) (map id (messages st)) -> onNewMessage getTime m st = st)
  /\ (forall prev m,
      mergeNewMessage getTime (mergeNewMessage getTime prev m) m
      = mergeNewMessage getTime prev m)
  /\ (forall arrivals m,
      occurrences (id m)
        (messages (run getTime (arrivals ++ [Pushed m; Pushed m]) initial)) = 1%nat)
  /\ (forall data m,
      In m data -> occurrences (id m) (fetchedMessages getTime data) = 1%nat)
  /\ (forall before m after,
      ~ In (id m) (map id after) ->
      In m (fetchedMessages getTime (before ++ m :: after)))
  /\ (forall productId otherUserId user marked before m after st,
      present productId = true -> present otherUserId = true ->
      ~ In (id m) (map id after) ->
      let cache :=
        messages (fetchMessages getTime productId otherUserId user
                    (Resolved (before ++ m :: after)%list) marked st) in
      In m cache
      /\ occurrences (id m) cache = 1%nat
      /\ (forall x, In x cache -> id x = id m -> x = m)
      /\ (forall x, In x cache -> In x (before ++ m :: after)%list)
      /\ (forall old,
          In old (messages st) -> id old = id m -> old <> m -> ~ In old cache))
  /\ (forall arrivals productId otherUserId user marked data,
      present productId = true -> present otherUserId = true ->
      messages (run getTime
                  (arrivals ++ [Fetched productId otherUserId user (Resolved data) marked])
                  initial)
      = fetchedMessages getTime data).
Proof.
  split; [|split; [|split; [|split; [|split; [|split; [|split]]]]]].
  - intros prev m H. unfold mergeNewMessage. now rewrite H.
  - intros [msgs l e] m H. unfold onNewMessage. simpl in *.
    now rewrite CacheFacts.mergeNewMessage_present.
  - intros prev m. apply CacheFacts.mergeNewMessage_present.
    apply CacheFacts.mergeNewMessage_has_id.
  - intros arrivals m. unfold run. rewrite fold_left_app. simpl.
    set (st := fold_left (step getTime) arrivals initial).
    destruct (CacheFacts.run_invariant getTime arrivals initial
                (CacheFacts.initial_invariant getTime)) as [Hnd _].
    fold st in Hnd. unfold run in Hnd. fold st in Hnd.
    rewrite CacheFacts.mergeNewMessage_present
      by apply CacheFacts.mergeNewMessage_has_id.
    apply CacheFacts.occurrences_once.
    + now apply CacheFacts.mergeNewMessage_ids_NoDup.
    + apply CacheFacts.mergeNewMessage_has_id.
  - intros data m Hin. apply CacheFacts.occurrences_once.
    + apply CacheFacts.fetchedMessages_ids_NoDup.
    + now apply CacheFacts.fetchedMessages_has_ids.
  - intros before m after. apply CacheFacts.fetchedMessages_last_wins.
  - intros productId otherUserId user marked before m after st Hp Ho Hlast cache.
    destruct (OrderFacts.fetchMessages_rebuilds getTime productId otherUserId user
                marked before m after st Hp Ho Hlast) as (Hin & Hone & Hsame & Hfrom).
    fold cache in Hin, Hone, Hsame, Hfrom.
    repeat (split; [assumption|]).
    intros old _ Hid Hne Hold. apply Hne. now apply Hsame.
  - intros arrivals productId otherUserId user marked data Hp Ho.
    unfold run. rewrite fold_left_app. simpl.
    now apply OrderFacts.fetchMessages_stores.
Qed.

Lemma cache_dedup_by_id_witness :
  mergeNewMessage decimalTime [Examples.first] Examples.firstRead = [Examples.first]
  /\ occurrences "m1" (fetchedMessages decimalTime [Examples.first; Examples.firstRead]) = 1%nat
  /\ In Examples.firstRead
        (fetchedMessages decimalTime ([Examples.first] ++ Examples.firstRead :: [Examples.second]))
  /\ ~ In Examples.first
        (messages (fetchMessages decimalTime (Some "P42") (Some "alice") (Some "bob")
                     (Resolved ([] ++ Examples.firstRead :: [Examples.second])%list)
                     (Resolved tt)
                     {| messages := [Examples.first]; loading := false; error := None |})).
Proof.
  destruct (cache_dedup_by_id decimalTime)
    as (Hpush & _ & _ & _ & Hone & Hlast & Hfetch & _).
  split; [|split; [|split]].
  - apply Hpush. reflexivity.
  - apply (Hone [Examples.first; Examples.firstRead] Examples.first). simpl. auto.
  - apply Hlast. simpl. intros [H|[]]. discriminate H.
  - destruct (Hfetch (Some "P42") (Some "alice") (Some "bob") (Resolved tt)
                [] Examples.firstRead [Examples.second]
                {| messages := [Examples.first]; loading := false; error := None |})
      as (_ & _ & _ & _ & Hgone).
    + reflexivity.
    + reflexivity.
    + simpl. intros [H|[]]. discriminate H.
    + apply Hgone.
      * simpl. auto.
      * reflexivity.
      * intros H. discriminate H.
Defined.

(** C2, counterexample on the bulk fetch: Bob's thread holds
    [first] unread; a refetch returns the row with the same id and [read_at]
    set; the id was present, yet the cached entry is overwritten.  Within one
    fetched batch the later row with an id replaces the earlier one. *)
Lemma bulk_fetch_overwrites_cached_entry :
  let cached := run decimalTime [Examples.openThread [Examples.first]] initial in
  let refetched := step decimalTime cached (Examples.openThread [Examples.firstRead]) in
  messages cached = [Examples.first]
  /\ Js.some (fun msg => String.eqb (id msg) (id Examples.firstRead)) (messages cached) = true
  /\ messages refetched = [Examples.firstRead]
  /\ messages refetched <> messages cached
  /\ Js.has (id Examples.firstRead) (uniqueMessages [Examples.first]) = true
  /\ uniqueMessages [Examples.first; Examples.firstRead] <> uniqueMessages [Examples.first]
  /\ fetchedMessages decimalTime [Examples.first; Examples.firstRead] = [Examples.firstRead].
Proof.
  cbv zeta. repeat split; try reflexivity; vm_compute; discriminate.
Qed.





(** C6.  The conversation list has at most one group per
    (product_id, counterparty_id) pair, in every state the hook can reach and
    after every fetch that succeeds.  The key of the deduplication is built
    from the product id and the id of the other participant only, no key of
    the fetched data is lost, and for product ids of one length (UUIDs) two
    conversations have the same key exactly when they have the same pair.  A fetch builds its list from the fetched
    data alone: the list does not depend on the state before, and fetching
    the same data again leaves the state as it is. *)
Theorem conversations_one_group_per_pair (getTime : string -> Z) :
  (forall fetches,
      NoDup (map UseConversations.pairOf
               (UseConversations.conversations
                  (UseConversations.run getTime fetches UseConversations.initial))))
  /\ (forall user data st,
      NoDup (map UseConversations.pairOf
               (UseConversations.conversations
                  (UseConversations.fetchConversations getTime user (Resolved data) st))))
  /\ (forall user data st conv,
      In conv data ->
      In (UseConversations.conversationKey conv)
         (map UseConversations.conversationKey
            (UseConversations.conversations
               (UseConversations.fetchConversations getTime (Some user) (Resolved data) st))))
  /\ (forall x y,
      String.length (ProductConversation.product_id x)
      = String.length (ProductConversation.product_id y) ->
      (UseConversations.conversationKey x = UseConversations.conversationKey y
       <-> UseConversations.pairOf x = UseConversations.pairOf y))
  /\ (forall user data st1 st2,
      UseConversations.conversations
        (UseConversations.fetchConversations getTime user (Resolved data) st1)
      = UseConversations.conversations
          (UseConversations.fetchConversations getTime user (Resolved data) st2))
  /\ (forall user data st,
      UseConversations.fetchConversations getTime user (Resolved data)
        (UseConversations.fetchConversations getTime user (Resolved data) st)
      = UseConversations.fetchConversations getTime user (Resolved data) st)
  /\ (forall row,
      UseConversations.pairOf (MessageServiceRead.formatConversation row)
      = (ConversationRow.product_id row, ConversationRow.other_user_id row)
      /\ ProductConversation.id (MessageServiceRead.formatConversation row)
         = UseConversations.conversationKey (MessageServiceRead.formatConversation row)).
Proof.
  repeat split.
  - intros fetches. apply ConversationFacts.run_pairs_NoDup. constructor.
  - intros [u|] data st; simpl; [apply ConversationFacts.unique_pairs_NoDup | constructor].
  - intros user data st conv Hin. simpl.
    destruct (ConversationFacts.uniqueConversations_inv getTime data) as [Hk _].
    rewrite <- (JsFacts.keyed_keys UseConversations.conversationKey) by exact Hk.
    now apply ConversationFacts.kept_has_key.
  - now apply ConversationFacts.conversationKey_pairOf.
  - apply ConversationFacts.pairOf_conversationKey.
  - intros [u|] data st1 st2; reflexivity.
  - intros [u|] data st; reflexivity.
Qed.

Lemma conversations_one_group_per_pair_witness :
  In (UseConversations.conversationKey Examples.withAlice)
     (map UseConversations.conversationKey
        (UseConversations.conversations
           (UseConversations.fetchConversations decimalTime (Some "bob")
              (Resolved [Examples.withAlice; Examples.withCarol; Examples.withAliceLater])
              UseConversations.initial))).
Proof.
  destruct (conversations_one_group_per_pair decimalTime) as (_ & _ & Hkey & _).
  apply Hkey. simpl. auto.
Defined.


(** C1.  Through the handle of [subscribeToProductMessages(productId,
    otherUserId, callback)] the callback is called for an event only if the
    event is an insert for that product whose (sender_id, recipient_id) pair
    is the session user U and [otherUserId], in either direction; an event
    between U and any other counterparty is never delivered. *)
Theorem product_subscription_delivers_only_its_pair (Callback : Type)
    (env : Supabase.Env) (productId otherUserId : string) (callback : Callback)
    (c c' : Realtime.Client Callback) (h : Realtime.Handle)
    (w : Realtime.World) (ch : Realtime.Change) :
  Realtime.wellFormed c = true ->
  Realtime.subscribeToProductMessages env productId otherUserId callback c = (h, c') ->
  (forall i,
      In i (Realtime.invokedOn h (Realtime.deliver w c' ch)) ->
      Realtime.called i = callback
      /\ Realtime.eventType ch = Realtime.INSERT
      /\ Realtime.product_id (Realtime.new ch) = productId
      /\ exists U, Realtime.currentUser w = Some U
                   /\ Realtime.between U otherUserId (Realtime.new ch))
  /\ (forall U counterparty,
      Realtime.currentUser w = Some U ->
      counterparty <> otherUserId ->
      Realtime.between U counterparty (Realtime.new ch) ->
      Realtime.invokedOn h (Realtime.deliver w c' ch) = []).
Proof.
  intros Hwf Hsub.
  assert (forall i,
      In i (Realtime.invokedOn h (Realtime.deliver w c' ch)) ->
      Realtime.called i = callback
      /\ Realtime.eventType ch = Realtime.INSERT
      /\ Realtime.product_id (Realtime.new ch) = productId
      /\ exists U, Realtime.currentUser w = Some U
                   /\ Realtime.between U otherUserId (Realtime.new ch)) as Honly.
  { intros i Hi.
    destruct (RealtimeFacts.subscribeToProductMessages_result _ _ _ _ _ _ _ Hsub)
      as [[-> ->]|[-> Hch]]; [contradiction|].
    apply RealtimeFacts.invokedOn_channel in Hi. destruct Hi as (b & Hb & Hi).
    rewrite Hch in Hb. apply in_app_or in Hb. destruct Hb as [Hold|[Hnew|[]]].
    { exfalso. exact (RealtimeFacts.wellFormed_fresh c b Hwf Hold). }
    injection Hnew as <-. unfold Realtime.notify in Hi. simpl in Hi.
    destruct (Realtime.eventType ch) eqn:Eev; simpl in Hi; try contradiction.
    destruct (String.eqb_spec (Realtime.product_id (Realtime.new ch)) productId)
      as [Hp|Hp]; [|contradiction].
    destruct (Realtime.onProductInsert w otherUserId (Realtime.new ch)) as [m|] eqn:E;
      [|contradiction].
    destruct Hi as [<-|[]]. simpl.
    apply RealtimeFacts.onProductInsert_called in E.
    destruct E as (U & found & HU & Hpair & _). eauto 6. }
  split; [exact Honly|].
  intros U counterparty HU Hne Hpair.
  destruct (Realtime.invokedOn h (Realtime.deliver w c' ch)) as [|i rest] eqn:E;
    [reflexivity|].
  exfalso. destruct (Honly i (or_introl eq_refl)) as (_ & _ & _ & U' & HU' & Hpair').
  rewrite HU in HU'. injection HU' as <-.
  unfold Realtime.between in *.
  destruct Hpair as [[]|[]]; destruct Hpair' as [[]|[]]; congruence.
Qed.

Lemma product_subscription_delivers_only_its_pair_witness :
  (forall i,
      In i (Realtime.invokedOn (Realtime.Channel 0)
              (Realtime.deliver Examples.bobsWorld
                 (snd (Realtime.subscribeToProductMessages Examples.configured
                         "P42" "alice" "onMessage" Examples.freshClient))
                 (Examples.inserted "m1" "alice"))) ->
      Realtime.called i = "onMessage")
  /\ Realtime.invokedOn (Realtime.Channel 0)
       (Realtime.deliver Examples.bobsWorld
          (snd (Realtime.subscribeToProductMessages Examples.configured
                  "P42" "alice" "onMessage" Examples.freshClient))
          (Examples.inserted "m2" "carol")) = [].
Proof.
  split.
  - intros i Hi.
    destruct (product_subscription_delivers_only_its_pair string Examples.configured
                "P42" "alice" "onMessage" Examples.freshClient _ _
                Examples.bobsWorld (Examples.inserted "m1" "alice")
                eq_refl eq_refl) as [Honly _].
    exact (proj1 (Honly i Hi)).
  - destruct (product_subscription_delivers_only_its_pair string Examples.configured
                "P42" "alice" "onMessage" Examples.freshClient _ _
                Examples.bobsWorld (Examples.inserted "m2" "carol")
                eq_refl eq_refl) as [_ Hnever].
    apply (Hnever "bob" "carol").
    + reflexivity.
    + intros H. discriminate H.
    + right. split; reflexivity.
Defined.

(** C7.  When the setup of a subscription fails (the configuration check or
    the join throws), [subscribeToUserMessages] and
    [subscribeToProductMessages] return a handle instead of an error: the
    client is left as it was, [unsubscribe] on the handle returns without
    throwing and changes nothing, however often it is called, and no call of
    any callback is ever made through the handle. *)
Theorem failed_setup_gives_inert_handle (Callback : Type)
    (env : Supabase.Env) (userId productId otherUserId : string)
    (callback : Callback) (c c' : Realtime.Client Callback) (h : Realtime.Handle) :
  Realtime.setupFails env c = true ->
  Realtime.subscribeToUserMessages env userId callback c = (h, c')
  \/ Realtime.subscribeToProductMessages env productId otherUserId callback c = (h, c') ->
  h = Realtime.Inert
  /\ c' = c
  /\ (forall c0 : Realtime.Client Callback,
        Realtime.unsubscribe h c0 = (Resolved tt, c0)
        /\ Realtime.unsubscribe h (snd (Realtime.unsubscribe h c0)) = (Resolved tt, c0))
  /\ (forall events,
        Realtime.invokedOn h (Realtime.deliverAll c' events) = []
        /\ Realtime.deliverAll c' events = Realtime.deliverAll c events).
Proof.
  intros Hfail Hsub.
  assert (h = Realtime.Inert /\ c' = c) as [-> ->].
  { destruct Hsub as [Hsub|Hsub].
    - rewrite RealtimeFacts.setupFails_subscribeToUserMessages in Hsub by exact Hfail.
      now injection Hsub as <- <-.
    - rewrite RealtimeFacts.setupFails_subscribeToProductMessages in Hsub by exact Hfail.
      now injection Hsub as <- <-. }
  repeat split.
Qed.

Lemma failed_setup_gives_inert_handle_witness :
  (fst (Realtime.subscribeToUserMessages Examples.unconfigured "bob" "refresh"
          Examples.freshClient) = Realtime.Inert
   /\ snd (Realtime.subscribeToUserMessages Examples.unconfigured "bob" "refresh"
             Examples.freshClient) = Examples.freshClient)
  /\ (fst (Realtime.subscribeToProductMessages Examples.configured "P42" "alice"
             "onMessage" Examples.offlineClient) = Realtime.Inert
      /\ snd (Realtime.subscribeToProductMessages Examples.configured "P42" "alice"
                "onMessage" Examples.offlineClient) = Examples.offlineClient).
Proof.
  split.
  - destruct (failed_setup_gives_inert_handle string Examples.unconfigured
                "bob" "P42" "alice" "refresh" Examples.freshClient
                (snd (Realtime.subscribeToUserMessages Examples.unconfigured "bob"
                        "refresh" Examples.freshClient))
                (fst (Realtime.subscribeToUserMessages Examples.unconfigured "bob"
                        "refresh" Examples.freshClient))
                eq_refl (or_introl eq_refl)) as (Hh & Hc & _).
    exact (conj Hh Hc).
  - destruct (failed_setup_gives_inert_handle string Examples.configured
                "bob" "P42" "alice" "onMessage" Examples.offlineClient
                (snd (Realtime.subscribeToProductMessages Examples.configured "P42"
                        "alice" "onMessage" Examples.offlineClient))
                (fst (Realtime.subscribeToProductMessages Examples.configured "P42"
                        "alice" "onMessage" Examples.offlineClient))
                eq_refl (or_intror eq_refl)) as (Hh & Hc & _).
    exact (conj Hh Hc).
Defined.


(** C4.  A send whose sender is its recipient persists nothing and fails with
    [InvalidSender], for every user, product and content: at the store's
    [append], and through [sendProductMessage] of a configured client in the
    session of that user (an unconfigured client fails before the call,
    likewise without persisting).  On the product page a user who is the
    seller is never taken to the message form. *)
Theorem send_to_self_is_rejected (assign : Store.t -> string * string)
    (env : Supabase.Env) (X product content : string) (log : Store.t) :
  Supabase.isSupabaseConfigured env = true ->
  (forall assigned,
      Store.append assigned X X product content log
      = (Rejected Error.InvalidSender, log))
  /\ MessageService.sendProductMessage (Store.send_product_message assign X)
       env product X content log
     = (Rejected Error.InvalidSender, log)
  /\ (forall env',
      exists e,
        MessageService.sendProductMessage (Store.send_product_message assign X)
          env' product X content log
        = (Rejected e, log))
  /\ (forall title url,
      ProductDetail.handleContactSeller (Some X)
        (Some {| ProductDetail.seller_id := X; ProductDetail.title := title |}) product
      <> ProductDetail.Navigate url).
Proof.
  intros Hcfg.
  assert (forall assigned,
      Store.append assigned X X product content log
      = (Rejected Error.InvalidSender, log)) as Happend.
  { intros assigned. unfold Store.append. now rewrite String.eqb_refl. }
  split; [exact Happend|]. split; [|split].
  - unfold MessageService.sendProductMessage, Supabase.checkSupabaseConfig.
    rewrite Hcfg. unfold Store.send_product_message, Store.append.
    now rewrite String.eqb_refl.
  - intros env'. unfold MessageService.sendProductMessage, Supabase.checkSupabaseConfig.
    destruct (Supabase.isSupabaseConfigured env'); [|eauto].
    unfold Store.send_product_message, Store.append.
    rewrite String.eqb_refl. eauto.
  - intros title url. unfold ProductDetail.handleContactSeller. simpl.
    destruct (Js.truthy X); simpl; [|discriminate].
    rewrite String.eqb_refl. discriminate.
Qed.

Lemma send_to_self_is_rejected_witness :
  MessageService.sendProductMessage (Store.send_product_message Examples.assign "alice")
    Examples.configured "P42" "alice" "Bonjour" []
  = (Rejected Error.InvalidSender, []).
Proof.
  exact (proj1 (proj2 (send_to_self_is_rejected Examples.assign Examples.configured
                         "alice" "P42" "Bonjour" [] eq_refl))).
Defined.

(** C5, counterexample: Alice, with the thread open in a
    configured client, sends three spaces; the send returns [undefined]
    without an error, so it does not fail with [EmptyContent]. *)
Lemma blank_send_raises_no_error :
  sendMessage (Store.send_product_message Examples.assign "alice")
    Examples.configured (Some "P42") (Some "bob") (Some "alice") "   " initial []
  = (Resolved None, initial, [])
  /\ fst (fst (sendMessage (Store.send_product_message Examples.assign "alice")
                 Examples.configured (Some "P42") (Some "bob") (Some "alice") "   "
                 initial []))
     <> Rejected Error.EmptyContent.
Proof.
  split; [reflexivity | vm_compute; discriminate].
Qed.

(** C5 (amended).  The send of the hook called with content that is blank
    after trimming returns at once with [undefined]: it raises no error, makes
    no call to the backend, whatever the backend is, and leaves the state of
    the hook and of the backend as they were, so nothing is persisted. *)
Theorem blank_send_is_dropped (S R : Type)
    (rpc_send : string -> string -> string -> S -> Outcome R * S)
    (env : Supabase.Env) (productId otherUserId user : option string)
    (content : string) (st : State) (backend : S) :
  Js.trim content = "" ->
  sendMessage rpc_send env productId otherUserId user content st backend
  = (Resolved None, st, backend).
Proof.
  intros Hblank. unfold sendMessage. rewrite Hblank. simpl.
  destruct productId as [p|]; [|reflexivity].
  destruct otherUserId as [o|]; [|reflexivity].
  now rewrite !orb_true_r.
Qed.

Lemma blank_send_is_dropped_witness :
  sendMessage (Store.send_product_message Examples.assign "alice")
    Examples.configured (Some "P42") (Some "bob") (Some "alice") "   " initial [Examples.stored]
  = (Resolved None, initial, [Examples.stored]).
Proof.
  exact (blank_send_is_dropped Store.t Store.Message
           (Store.send_product_message Examples.assign "alice")
           Examples.configured (Some "P42") (Some "bob") (Some "alice") "   "
           initial [Examples.stored] eq_refl).
Defined.


(** C8, counterexample: Bob's thread with Alice is subscribed;
    Alice's insert on P42 passes the filter of the channel and the test of
    the pair; the select of the message with its users returns nothing, and
    the callback is not called: the event is dropped. *)
Lemma event_dropped_when_select_fails :
  fst Examples.bobsThread = Realtime.Channel 0
  /\ Realtime.eventMatches Realtime.OnInsert
       (Realtime.eventType (Examples.inserted "m1" "alice")) = true
  /\ Realtime.rowMatches (Realtime.OfProduct "P42")
       (Realtime.new (Examples.inserted "m1" "alice")) = true
  /\ Realtime.between "bob" "alice" (Realtime.new (Examples.inserted "m1" "alice"))
  /\ Realtime.deliver Examples.bobsWorldWithoutSelect (snd Examples.bobsThread)
       (Examples.inserted "m1" "alice") = [].
Proof.
  repeat split. right. split; reflexivity.
Qed.

(** C8 (amended).  For an insert that passes the scope filter of a joined
    product subscription (the product, and the pair of the session user and
    [otherUserId]): when the select of the message by id returns the row, the
    callback is called once, with the decorated message; every field is that
    of the row, and a name that cannot be resolved (no sender or recipient
    user, or an empty name) is replaced by ["Unknown"] without dropping the
    event.  When the select returns nothing the callback is not called. *)
Theorem delivered_message_is_decorated (Callback : Type)
    (env : Supabase.Env) (productId otherUserId : string) (callback : Callback)
    (c c' : Realtime.Client Callback) (ref : nat)
    (w : Realtime.World) (ch : Realtime.Change) (U : string) :
  Realtime.wellFormed c = true ->
  Realtime.subscribeToProductMessages env productId otherUserId callback c
  = (Realtime.Channel ref, c') ->
  Realtime.eventType ch = Realtime.INSERT ->
  Realtime.product_id (Realtime.new ch) = productId ->
  Realtime.currentUser w = Some U ->
  Realtime.between U otherUserId (Realtime.new ch) ->
  (forall found,
      Realtime.selectMessage w (Realtime.id (Realtime.new ch)) = Some found ->
      Realtime.invokedOn (Realtime.Channel ref) (Realtime.deliver w c' ch)
      = [{| Realtime.via := ref;
            Realtime.called := callback;
            Realtime.argument := Some (Realtime.decorate found) |}]
      /\ id (Realtime.decorate found) = Realtime.id (Realtime.row found)
      /\ product_id (Realtime.decorate found) = Realtime.product_id (Realtime.row found)
      /\ sender_id (Realtime.decorate found) = Realtime.sender_id (Realtime.row found)
      /\ recipient_id (Realtime.decorate found) = Realtime.recipient_id (Realtime.row found)
      /\ content (Realtime.decorate found) = Realtime.content (Realtime.row found)
      /\ read_at (Realtime.decorate found) = Realtime.read_at (Realtime.row found)
      /\ created_at (Realtime.decorate found) = Realtime.created_at (Realtime.row found)
      /\ sender_name (Realtime.decorate found)
         = match Realtime.sender found with
           | Some u => if Js.truthy (Realtime.user_name u)
                       then Realtime.user_name u else "Unknown"
           | None => "Unknown"
           end
      /\ recipient_name (Realtime.decorate found)
         = match Realtime.recipient found with
           | Some u => if Js.truthy (Realtime.user_name u)
                       then Realtime.user_name u else "Unknown"
           | None => "Unknown"
           end)
  /\ (Realtime.selectMessage w (Realtime.id (Realtime.new ch)) = None ->
      Realtime.invokedOn (Realtime.Channel ref) (Realtime.deliver w c' ch) = []).
Proof.
  intros Hwf Hsub Hev Hprod HU Hpair.
  destruct (RealtimeFacts.subscribeToProductMessages_result _ _ _ _ _ _ _ Hsub)
    as [[Hinert _]|[Href Hch]]; [discriminate Hinert|].
  injection Href as ->.
  rewrite (RealtimeFacts.invokedOn_joined w c c' ch _ Hwf Hch).
  unfold Realtime.notify. simpl. rewrite Hev, Hprod, String.eqb_refl. simpl.
  rewrite (RealtimeFacts.onProductInsert_between w otherUserId _ U HU Hpair).
  split.
  - intros found ->. repeat split.
  - intros ->. reflexivity.
Qed.

Lemma delivered_message_is_decorated_witness :
  Realtime.invokedOn (Realtime.Channel 0)
    (Realtime.deliver Examples.bobsWorld (snd Examples.bobsThread)
       (Examples.inserted "m1" "alice"))
  = [{| Realtime.via := 0%nat;
        Realtime.called := "onMessage";
        Realtime.argument :=
          Some (Realtime.decorate
                  {| Realtime.row := Examples.rowFrom "m1" "alice";
                     Realtime.sender := None;
                     Realtime.recipient := None |}) |}]
  /\ sender_name (Realtime.decorate
                    {| Realtime.row := Examples.rowFrom "m1" "alice";
                       Realtime.sender := None;
                       Realtime.recipient := None |}) = "Unknown".
Proof.
  destruct (delivered_message_is_decorated string Examples.configured "P42" "alice"
              "onMessage" Examples.freshClient (snd Examples.bobsThread) 0
              Examples.bobsWorld (Examples.inserted "m1" "alice") "bob"
              eq_refl eq_refl eq_refl eq_refl eq_refl
              (or_intror (conj eq_refl eq_refl))) as [Hcalled _].
  destruct (Hcalled _ eq_refl) as (Hcalls & _ & _ & _ & _ & _ & _ & _ & Hname & _).
  exact (conj Hcalls Hname).
Defined.


(** C9.  [markRead(U, C, P)] is idempotent: a second call, at whatever time,
    updates zero rows and leaves the store as the first call left it, so the
    unread count of U is the same afterward; a call that finds nothing unread
    changes nothing and is not an error.  Through [markMessagesAsRead] of a
    configured client in the session of U both calls resolve. *)
Theorem markRead_is_idempotent (clock : Store.t -> string) (env : Supabase.Env)
    (now1 now2 U C P : string) (log : Store.t) :
  let once := Store.markRead now1 U C P log in
  let twice := Store.markRead now2 U C P (snd once) in
  snd twice = snd once
  /\ fst twice = 0%nat
  /\ Store.countUnread U (snd twice) = Store.countUnread U (snd once)
  /\ (fst once = 0%nat -> once = (0%nat, log))
  /\ (Supabase.isSupabaseConfigured env = true ->
      let rpc_mark := Store.mark_product_messages_as_read clock U in
      let first := MessageService.markMessagesAsRead rpc_mark env P C log in
      first = (Resolved tt, snd (Store.markRead (clock log) U C P log))
      /\ MessageService.markMessagesAsRead rpc_mark env P C (snd first)
         = (Resolved tt, snd first)).
Proof.
  cbv zeta. rewrite StoreFacts.markRead_again. simpl fst. simpl snd.
  split; [reflexivity|]. split; [reflexivity|]. split; [reflexivity|]. split.
  - intros Hzero. apply StoreFacts.markRead_nothing_to_do.
    now apply length_zero_iff_nil.
  - intros Hcfg.
    unfold MessageService.markMessagesAsRead, Supabase.checkSupabaseConfig.
    rewrite Hcfg. unfold Store.mark_product_messages_as_read.
    split; [reflexivity|].
    set (after := snd (Store.markRead (clock log) U C P log)).
    change (snd (Resolved tt, after)) with after.
    unfold after. now rewrite StoreFacts.markRead_again.
Qed.

Lemma markRead_is_idempotent_witness :
  MessageService.markMessagesAsRead
    (Store.mark_product_messages_as_read Examples.serverClock "bob")
    Examples.configured "P42" "alice" [Examples.unreadForBob]
  = (Resolved tt, [Store.setRead "9" Examples.unreadForBob])
  /\ Store.markRead "9" "bob" "alice" "P42" [Examples.stored]
     = (0%nat, [Examples.stored]).
Proof.
  destruct (markRead_is_idempotent Examples.serverClock Examples.configured
              "9" "9" "bob" "alice" "P42" [Examples.unreadForBob])
    as (_ & _ & _ & _ & Hclient).
  destruct (markRead_is_idempotent Examples.serverClock Examples.configured
              "9" "9" "bob" "alice" "P42" [Examples.stored])
    as (_ & _ & _ & Hnoop & _).
  split.
  - exact (proj1 (Hclient eq_refl)).
  - exact (Hnoop eq_refl).
Defined.

(** C10.  [getUnreadMessageCount] never rejects: it always resolves with a
    number, and when the configuration is missing or the backend call fails
    that number is 0, the very result of a successful call that counts no
    unread message. *)
Theorem unread_count_never_rejects (env : Supabase.Env) (rpc : Outcome (option Z)) :
  (exists n, MessageServiceRead.getUnreadMessageCount env rpc = Resolved n)
  /\ (Supabase.isSupabaseConfigured env = false ->
      MessageServiceRead.getUnreadMessageCount env rpc = Resolved 0)
  /\ (forall error,
      rpc = Rejected error ->
      MessageServiceRead.getUnreadMessageCount env rpc = Resolved 0)
  /\ (forall env',
      Supabase.isSupabaseConfigured env' = true ->
      MessageServiceRead.getUnreadMessageCount env' (Resolved (Some 0)) = Resolved 0).
Proof.
  unfold MessageServiceRead.getUnreadMessageCount, Supabase.checkSupabaseConfig.
  repeat split.
  - destruct (Supabase.isSupabaseConfigured env); [|eauto].
    destruct rpc as [[data|]|error]; eauto.
  - intros ->. reflexivity.
  - intros error ->. now destruct (Supabase.isSupabaseConfigured env).
  - intros env' ->. reflexivity.
Qed.

Lemma unread_count_never_rejects_witness :
  MessageServiceRead.getUnreadMessageCount Examples.unconfigured (Resolved (Some 3))
  = Resolved 0
  /\ MessageServiceRead.getUnreadMessageCount Examples.configured
       (Rejected (Error.Backend "fetch failed")) = Resolved 0.
Proof.
  split.
  - exact (proj1 (proj2 (unread_count_never_rejects Examples.unconfigured
                           (Resolved (Some 3)))) eq_refl).
  - exact (proj1 (proj2 (proj2 (unread_count_never_rejects Examples.configured
                                  (Rejected (Error.Backend "fetch failed")))))
             (Error.Backend "fetch failed") eq_refl).
Defined.

End Claims.

(** * Further properties of the modelled code *)

(** ** The cache of an open thread, further *)

Module CacheLaws.
Import UseProductMessages ProductMessage JsFacts CollectionLaws.

Lemma messageOr_nonempty e fallback : fallback <> "" -> messageOr e fallback <> "".
Proof.
  unfold messageOr. intros H. destruct (Js.truthy (Error.message e)) eqn:E; [|exact H].
  intros Heq. rewrite Heq in E. discriminate E.
Qed.

Section WithClock.
Variable getTime : string -> Z.

Let enter (m : Js.Map ProductMessage.t) (msg : ProductMessage.t) := Js.set (id msg) msg m.





(** X3.  A realtime push never removes a cached message: every message of
    the cache is still there afterwards, the only message that can come in is
    the pushed one, and the cache grows by one message or not at all. *)
Theorem push_never_loses_messages (prev : list ProductMessage.t) (m : ProductMessage.t) :
  (forall x, In x prev -> In x (mergeNewMessage getTime prev m))
  /\ (forall x, In x (mergeNewMessage getTime prev m) -> In x prev \/ x = m)
  /\ (List.length (mergeNewMessage getTime prev m) = List.length prev
      \/ List.length (mergeNewMessage getTime prev m) = Datatypes.S (List.length prev)).
Proof.
  destruct (in_dec string_dec (id m) (map id prev)) as [Hin|Hout].
  - rewrite CacheFacts.mergeNewMessage_present by exact Hin. auto.
  - pose proof (CacheFacts.mergeNewMessage_fresh getTime prev m Hout) as Hperm.
    split; [|split].
    + intros x Hx. eapply Permutation_in; [exact Hperm|]. apply in_or_app. now left.
    + intros x Hx. apply (Permutation_in _ (Permutation_sym Hperm)) in Hx.
      apply in_app_or in Hx. destruct Hx as [H|[H|[]]]; auto.
    + right. rewrite <- (Permutation_length Hperm), length_app. simpl. lia.
Qed.
End WithClock.

(** X4.  [sendMessage] never touches the cache of the thread, whatever the
    backend does: the messages and the loading flag are as before; a send
    that resolves leaves the whole state of the hook unchanged, and a send
    that is rejected records a non-empty error text. *)
Theorem send_leaves_cache_alone (S R : Type)
    (rpc_send : string -> string -> string -> S -> Outcome R * S)
    (env : Supabase.Env) (productId otherUserId user : option string)
    (content : string) (st : State) (backend : S) :
  let result := sendMessage rpc_send env productId otherUserId user content st backend in
  messages (snd (fst result)) = messages st
  /\ loading (snd (fst result)) = loading st
  /\ (forall r, fst (fst result) = Resolved r -> snd (fst result) = st)
  /\ (forall e, fst (fst result) = Rejected e ->
        exists text, error (snd (fst result)) = Some text /\ text <> "").
Proof.
  cbv zeta. unfold sendMessage.
  destruct productId as [p|]; [|simpl; repeat split; discriminate].
  destruct otherUserId as [o|]; [|simpl; repeat split; discriminate].
  destruct (negb (present (Some p)) || negb (present (Some o))
            || negb match user with Some _ => true | None => false end
            || negb (Js.truthy (Js.trim content)))%bool;
    [simpl; repeat split; discriminate|].
  destruct (MessageService.sendProductMessage rpc_send env p o content backend)
    as [[result|err] backend']; simpl.
  - repeat split. discriminate.
  - repeat split; [discriminate|]. intros e _. eexists. split; [reflexivity|].
    apply messageOr_nonempty. discriminate.
Qed.
End CacheLaws.

(** ** The conversation list, further *)

Module ConversationLaws.
Import UseConversations ProductConversation JsFacts CollectionLaws.

Section WithClock.
Variable getTime : string -> Z.

Let time (c : ProductConversation.t) : Z := getTime (last_message_at c).

Lemma keepLatest_fresh m conv :
  Js.has (conversationKey conv) m = false ->
  keepLatest getTime m conv = (m ++ [(conversationKey conv, conv)])%list.
Proof.
  intros H. unfold keepLatest. rewrite H. simpl. now apply set_fresh.
Qed.

Lemma keepLatest_holds_newer m conv :
  exists kept, Js.get (conversationKey conv) (keepLatest getTime m conv) = Some kept
               /\ time conv <= time kept.
Proof.
  unfold keepLatest. destruct (Js.has (conversationKey conv) m) eqn:E; simpl.
  - apply has_get in E. destruct E as [old Hold]. rewrite Hold.
    destruct (Z.gtb_spec (getTime (last_message_at conv)) (getTime (last_message_at old))).
    + exists conv. split; [apply get_set_same | unfold time; lia].
    + exists old. split; [exact Hold | unfold time; lia].
  - exists conv. split; [apply get_set_same | lia].
Qed.

Lemma keepLatest_never_older m conv k old :
  Js.get k m = Some old ->
  exists kept, Js.get k (keepLatest getTime m conv) = Some kept /\ time old <= time kept.
Proof.
  intros Hold. unfold keepLatest.
  destruct (String.eqb_spec k (conversationKey conv)) as [->|Hne].
  - assert (Js.has (conversationKey conv) m = true) as Hhas by (apply has_get; eauto).
    rewrite Hhas, Hold. simpl.
    destruct (Z.gtb_spec (getTime (last_message_at conv)) (getTime (last_message_at old))).
    + exists conv. split; [apply get_set_same | unfold time; lia].
    + exists old. split; [exact Hold | lia].
  - destruct (negb (Js.has (conversationKey conv) m) || _)%bool.
    + exists old. split; [now rewrite get_set_other | lia].
    + exists old. split; [exact Hold | lia].
Qed.

Lemma kept_never_older data m k old :
  Js.get k m = Some old ->
  exists kept, Js.get k (fold_left (keepLatest getTime) data m) = Some kept
               /\ time old <= time kept.
Proof.
  revert m old. induction data as [|c data IH]; simpl; intros m old Hold.
  - exists old. split; [exact Hold | lia].
  - destruct (keepLatest_never_older m c k old Hold) as (mid & Hmid & Hle).
    destruct (IH _ _ Hmid) as (kept & Hkept & Hle'). exists kept. split; [exact Hkept | lia].
Qed.

Lemma kept_holds_newer data m conv :
  In conv data ->
  exists kept, Js.get (conversationKey conv) (fold_left (keepLatest getTime) data m) = Some kept
               /\ time conv <= time kept.
Proof.
  revert m. induction data as [|c data IH]; simpl; intros m Hin; [contradiction|].
  destruct Hin as [->|Hin]; [|now apply IH].
  destruct (keepLatest_holds_newer m conv) as (mid & Hmid & Hle).
  destruct (kept_never_older data _ _ _ Hmid) as (kept & Hkept & Hle').
  exists kept. split; [exact Hkept | lia].
Qed.

Lemma kept_fresh data acc :
  NoDup (Js.keys acc ++ map conversationKey data) ->
  fold_left (keepLatest getTime) data acc
  = (acc ++ map (fun conv => (conversationKey conv, conv)) data)%list.
Proof.
  revert acc. induction data as [|x data IH]; simpl; intros acc Hnd.
  - now rewrite app_nil_r.
  - assert (Js.has (conversationKey x) acc = false) as Hfresh.
    { destruct (Js.has (conversationKey x) acc) eqn:E; [|reflexivity].
      apply has_In in E. apply NoDup_remove_2 in Hnd. exfalso. apply Hnd.
      apply in_or_app. now left. }
    rewrite (keepLatest_fresh _ _ Hfresh), IH.
    + now rewrite <- app_assoc.
    + unfold Js.keys in *. rewrite map_app, <- app_assoc. simpl. exact Hnd.
Qed.

Lemma kept_from data acc x :
  In x (Js.values (fold_left (keepLatest getTime) data acc)) ->
  In x data \/ In x (Js.values acc).
Proof.
  revert acc. induction data as [|y data IH]; simpl; intros acc H; [auto|].
  destruct (IH _ H) as [Hin|Hin]; [auto|].
  unfold keepLatest in Hin.
  destruct (negb (Js.has (conversationKey y) acc) || _)%bool; [|auto].
  destruct (values_set_from _ _ _ _ Hin) as [->|Hacc]; auto.
Qed.

(** X5.  Among fetched conversations with the same product and participant
    the latest wins: for every fetched conversation the list holds one with
    the same key and the same pair whose [last_message_at] is not older. *)
Theorem latest_conversation_wins (user : string)
    (data : list ProductConversation.t) (st : State) (conv : ProductConversation.t) :
  In conv data ->
  exists kept,
    In kept (conversations (fetchConversations getTime (Some user) (Resolved data) st))
    /\ conversationKey kept = conversationKey conv
    /\ getTime (last_message_at conv) <= getTime (last_message_at kept).
Proof.
  intros Hin. simpl.
  destruct (kept_holds_newer data Js.empty conv Hin) as (kept & Hget & Hle).
  destruct (ConversationFacts.uniqueConversations_inv getTime data) as [Hkeyed _].
  exists kept. split; [|split].
  - now apply (get_In_values (conversationKey conv)).
  - now apply (get_keyed conversationKey _ _ _ Hkeyed).
  - exact Hle.
Qed.

(** X6.  A fetched list without repeated keys, as the aggregation of the
    backend returns it, is shown as it came, in the same order; and the list
    never holds a conversation that was not fetched. *)
Theorem distinct_conversations_kept_in_order (user : string)
    (data : list ProductConversation.t) (st : State) :
  (NoDup (map conversationKey data) ->
   conversations (fetchConversations getTime (Some user) (Resolved data) st) = data)
  /\ (forall conv,
        In conv (conversations (fetchConversations getTime (Some user) (Resolved data) st)) ->
        In conv data).
Proof.
  simpl. split.
  - intros Hnd. unfold uniqueConversations. rewrite kept_fresh by exact Hnd. simpl.
    unfold Js.values. rewrite map_map. simpl. apply map_id.
  - intros conv Hin. destruct (kept_from data Js.empty conv Hin) as [H|[]]. exact H.
Qed.

(** X7.  A refetch that fails loses nothing, in either hook: the list (or
    the cache of the open thread) stays as it was, the loading flag is
    cleared, and a non-empty error text is recorded. *)
Theorem failed_refetch_keeps_data (err : Error.t) :
  (forall user st,
      let st' := fetchConversations getTime (Some user) (Rejected err) st in
      conversations st' = conversations st
      /\ loading st' = false
      /\ exists text, error st' = Some text /\ text <> "")
  /\ (forall productId otherUserId user marked st,
      present productId = true -> present otherUserId = true ->
      let st' := UseProductMessages.fetchMessages getTime productId otherUserId user
                   (Rejected err) marked st in
      UseProductMessages.messages st' = UseProductMessages.messages st
      /\ UseProductMessages.loading st' = false
      /\ exists text, UseProductMessages.error st' = Some text /\ text <> "").
Proof.
  split.
  - intros user st. simpl. repeat split. eexists. split; [reflexivity|].
    apply CacheLaws.messageOr_nonempty. discriminate.
  - intros productId otherUserId user marked st Hp Ho. cbv zeta.
    unfold UseProductMessages.fetchMessages. rewrite Hp, Ho. simpl.
    repeat split. eexists. split; [reflexivity|].
    apply CacheLaws.messageOr_nonempty. discriminate.
Qed.
End WithClock.
End ConversationLaws.

(** ** Configuration, profiles and the auth provider *)

Module AuthLaws.
Import Auth.

(** X8.  The fields of the configuration status agree: the client counts as
    configured exactly when it has a key and a valid URL, and a valid URL is
    a URL that is present. *)
Theorem config_status_consistent (env : Supabase.Env) :
  let status := SupabaseStatus.getSupabaseConfigStatus env in
  SupabaseStatus.configured status
  = (SupabaseStatus.hasUrl status && SupabaseStatus.hasKey status
     && SupabaseStatus.urlValid status)%bool
  /\ (SupabaseStatus.urlValid status = true -> SupabaseStatus.hasUrl status = true)
  /\ (SupabaseStatus.configured status = true <->
      SupabaseStatus.hasKey status = true /\ SupabaseStatus.urlValid status = true).
Proof.
  cbv zeta. unfold SupabaseStatus.getSupabaseConfigStatus, Supabase.isSupabaseConfigured.
  destruct env as [[url|] [key|]]; simpl;
    try destruct (Js.truthy url); try destruct (Js.truthy key);
    try destruct (String.prefix "https://" url); simpl;
    repeat split; try tauto; try discriminate; intros [? ?]; try discriminate; auto.
Qed.

(** [getProfile] resolves, whatever its two lookups give. *)
Lemma getProfile_resolves (env : Supabase.Env) (id : string)
    (direct rpc : Outcome (option Profile.t)) (created updated : string) :
  exists p, UserService.getProfile env id direct rpc created updated = Resolved p.
Proof.
  unfold UserService.getProfile.
  destruct (Supabase.checkSupabaseConfig env); [|eauto].
  destruct direct as [[data|]|e]; [eauto| |eauto].
  destruct rpc as [[rpcData|]|e]; eauto.
Qed.

(** X9.  [getProfile] never rejects and never returns null.  It returns the
    row of the direct query when there is one, else the row of the procedure,
    and in every other case (unconfigured client, failed query, user not
    found) a stand-in profile with the requested id, the role "seller" and
    [verified = false].  Case by case, with a configured client: a row of the
    direct query on [users] is returned as it is; when that query finds no
    row, the row of [get_user_by_id] is returned; when the procedure finds
    none either, or fails, the stand-in is returned; when the direct query
    fails, the stand-in is returned and the row of the procedure is not
    used.  Without configuration the stand-in is returned. *)
Theorem getProfile_always_answers (env : Supabase.Env) (id : string)
    (direct rpc : Outcome (option Profile.t)) (created updated : string) :
  exists p,
    UserService.getProfile env id direct rpc created updated = Resolved p
    /\ (direct = Resolved (Some p)
        \/ rpc = Resolved (Some p)
        \/ (p = UserService.fallbackProfile id created updated
            /\ Profile.id p = id /\ Profile.role p = "seller"
            /\ Profile.verified p = false))
    /\ (Supabase.isSupabaseConfigured env = true ->
        forall data, direct = Resolved (Some data) -> p = data)
    /\ (Supabase.isSupabaseConfigured env = false ->
        p = UserService.fallbackProfile id created updated)
    /\ (Supabase.isSupabaseConfigured env = true -> direct = Resolved None ->
        forall rpcData, rpc = Resolved (Some rpcData) -> p = rpcData)
    /\ (Supabase.isSupabaseConfigured env = true -> direct = Resolved None ->
        rpc = Resolved None -> p = UserService.fallbackProfile id created updated)
    /\ (Supabase.isSupabaseConfigured env = true -> direct = Resolved None ->
        forall err, rpc = Rejected err ->
        p = UserService.fallbackProfile id created updated)
    /\ (forall err, direct = Rejected err ->
        p = UserService.fallbackProfile id created updated)
    /\ (p <> UserService.fallbackProfile id created updated ->
        Supabase.isSupabaseConfigured env = true
        /\ (direct = Resolved (Some p)
            \/ (direct = Resolved None /\ rpc = Resolved (Some p)))).
Proof.
  unfold UserService.getProfile, Supabase.checkSupabaseConfig.
  destruct (Supabase.isSupabaseConfigured env);
    [destruct direct as [[data|]|e]; [| destruct rpc as [[rpcData|]|e] |] |];
    eexists; (split; [reflexivity|]);
    repeat match goal with |- _ /\ _ => split end;
    intros; try discriminate; try congruence; auto 6.
Qed.

Ltac by_attempt read :=
  unfold attemptOnce;
  destruct (viaService read) as [[?|]|?];
  [ | destruct (viaQuery read) as [[?|]|?];
      [ | destruct (sessionEmail read) as [[?|]|?];
          [ destruct (String.eqb _ "admin@masociete.info") | | destruct (isPolicyError _) ]
        | destruct (isPolicyError _) ]
    | destruct (isPolicyError _) ].

Ltac settled := eexists; split; [reflexivity | cbn [attempts]; lia].

(** With enough fuel every call settles, after at most [3 - retryCount]
    attempts (one attempt from the third try on). *)
Lemma loadAttempts_settles userId io fuel :
  forall retryCount,
    (1 <= fuel)%nat -> (3 <= fuel + retryCount)%nat ->
    exists l, loadAttempts fuel userId io retryCount = Some l
              /\ (1 <= attempts l)%nat
              /\ (attempts l <= Nat.max 1 (3 - retryCount))%nat.
Proof.
  induction fuel as [|fuel IH]; intros r H1 H3; [lia|].
  assert ((r < 2)%nat ->
          exists l', loadAttempts fuel userId io (Datatypes.S r) = Some l'
                     /\ (1 <= attempts l')%nat
                     /\ (attempts l' <= Nat.max 1 (3 - Datatypes.S r))%nat) as Hretry
    by (intros; apply IH; lia).
  cbn [loadAttempts].
  destruct (Nat.ltb_spec r 2) as [Hlt2|Hge2].
  - destruct (Hretry Hlt2) as (l' & -> & Hlow & Hup).
    by_attempt (io r); destruct (Nat.ltb_spec r 1); destruct (Nat.ltb_spec r 2);
      try lia; settled.
  - by_attempt (io r); destruct (Nat.ltb_spec r 1); destruct (Nat.ltb_spec r 2);
      try lia; settled.
Qed.

Lemma attemptOnce_retry_settled userId read retryCount retry l :
  attemptOnce userId read retryCount None = Some l ->
  attemptOnce userId read retryCount retry = Some l.
Proof.
  by_attempt read; destruct (Nat.ltb retryCount 1); destruct (Nat.ltb retryCount 2);
    intros H; try discriminate H; exact H.
Qed.

(** More fuel does not change what a call settles to. *)
Lemma loadAttempts_more_fuel userId io fuel :
  forall retryCount l,
    loadAttempts fuel userId io retryCount = Some l ->
    loadAttempts (Datatypes.S fuel) userId io retryCount = Some l.
Proof.
  induction fuel as [|fuel IH]; intros r l H; [discriminate|].
  change (attemptOnce userId (io r) r
            match loadAttempts fuel userId io (Datatypes.S r) with
            | Some l => Some {| returned := returned l; attempts := Datatypes.S (attempts l) |}
            | None => None
            end = Some l) in H.
  change (attemptOnce userId (io r) r
            match loadAttempts (Datatypes.S fuel) userId io (Datatypes.S r) with
            | Some l => Some {| returned := returned l; attempts := Datatypes.S (attempts l) |}
            | None => None
            end = Some l).
  destruct (loadAttempts fuel userId io (Datatypes.S r)) as [l'|] eqn:E.
  - now rewrite (IH _ _ E).
  - now apply attemptOnce_retry_settled.
Qed.

Lemma loadAttempts_fuel_enough userId io extra :
  loadAttempts (3 + extra) userId io 0 = loadAttempts 3 userId io 0.
Proof.
  destruct (loadAttempts_settles userId io 3 0 ltac:(lia) ltac:(lia)) as (l & Hl & _).
  rewrite Hl. induction extra as [|extra IH]; [exact Hl|].
  now apply (loadAttempts_more_fuel userId io (3 + extra)).
Qed.

(** What a call of [loadUserProfile] returns, and the profile it leaves. *)
Lemma loadUserProfile_returns (userId : string) (io : nat -> Attempt)
    (st : State) (extra : nat) :
  exists l st',
    loadUserProfile (3 + extra) userId io st = Some (l, st')
    /\ (profileLoading st = true -> l = {| returned := None; attempts := 0 |} /\ st' = st)
    /\ (profileLoading st = false -> profile st' = returned l).
Proof.
  unfold loadUserProfile. rewrite loadAttempts_fuel_enough.
  destruct (profileLoading st) eqn:Hbusy.
  - eexists. eexists. split; [reflexivity|]. split; [auto|]. intros H; discriminate H.
  - destruct (loadAttempts_settles userId io 3 0 ltac:(lia) ltac:(lia)) as (l & Hl & _).
    rewrite Hl. exists l. eexists. split; [reflexivity|].
    split; [intros H; discriminate H|]. intros _. reflexivity.
Qed.


(** X11.  As the provider is wired, through [userService.getProfile], the
    first attempt always finds a profile: [loadUserProfile] returns the
    profile of the service after one attempt, never retries, never reaches
    the direct query or the admin setup profile, and never returns null. *)
Theorem profile_found_at_first_attempt (env : Supabase.Env) (userId : string)
    (lookups : nat -> Outcome (option Profile.t) * Outcome (option Profile.t))
    (clock : nat -> string * string)
    (rest : nat -> Outcome (option Profile.t) * Outcome (option string))
    (st : State) :
  profileLoading st = false ->
  exists p st',
    UserService.getProfile env userId (fst (lookups 0%nat)) (snd (lookups 0%nat))
      (fst (clock 0%nat)) (snd (clock 0%nat)) = Resolved p
    /\ loadUserProfile 3 userId (throughUserService env userId lookups clock rest) st
       = Some ({| returned := Some p; attempts := 1 |}, st')
    /\ profile st' = Some p.
Proof.
  intros Hidle.
  destruct (getProfile_resolves env userId (fst (lookups 0%nat))
              (snd (lookups 0%nat)) (fst (clock 0%nat)) (snd (clock 0%nat)))
    as (p & Hp).
  exists p. unfold loadUserProfile. rewrite Hidle. cbn [loadAttempts].
  unfold attemptOnce, throughUserService. cbn [viaService]. rewrite Hp.
  eexists. repeat split.
Qed.

(** X12.  [login] always settles with a result.  It succeeds exactly when
    the sign-in returns a user; a failure carries a non-empty error text and
    no redirect; a success carries no error and one of the three landing
    paths, "/admin" only for a profile with the role admin and
    "/seller/dashboard" only for the role seller.  [isLoading] is cleared on
    every path. *)
Theorem login_result_shape (signIn : SignIn) (io : nat -> Attempt) (st : State)
    (extra : nat) :
  exists r st',
    login (3 + extra) signIn io st = Some (r, st')
    /\ isLoading st' = false
    /\ (success r = true <-> exists userId, signIn = SignInData (Some userId))
    /\ (success r = false ->
        redirect r = None /\ exists text, error r = Some text /\ text <> "")
    /\ (success r = true ->
        error r = None
        /\ (redirect r = Some "/" \/ redirect r = Some "/admin"
            \/ redirect r = Some "/seller/dashboard")
        /\ (redirect r = Some "/admin" ->
            exists p, profile st' = Some p /\ Profile.role p = "admin")
        /\ (redirect r = Some "/seller/dashboard" ->
            exists p, profile st' = Some p /\ Profile.role p = "seller")).
Proof.
  unfold login. destruct signIn as [e|[userId|]|e].
  - eexists. eexists. split; [reflexivity|]. repeat split; try discriminate.
    + intros [u H]. discriminate H.
    + eexists. split; [reflexivity|]. apply CacheLaws.messageOr_nonempty. discriminate.
  - set (st0 := {| user := Some userId; profile := profile st;
                   isLoading := true; profileLoading := profileLoading st |}).
    destruct (loadUserProfile_returns userId io st0 extra)
      as (l & st' & Hl & Hbusy & Hidle).
    rewrite Hl. eexists. eexists. split; [reflexivity|]. cbn [isLoading success error redirect profile].
    split; [reflexivity|]. split; [split; eauto|]. split; [discriminate|].
    intros _. split; [reflexivity|].
    destruct (profileLoading st0) eqn:E.
    + destruct (Hbusy eq_refl) as [-> ->]. cbn [returned].
      repeat split; auto; discriminate.
    + rewrite (Hidle eq_refl).
      destruct (returned l) as [p|]; [|repeat split; auto; discriminate].
      destruct (String.eqb_spec (Profile.role p) "admin") as [Hadmin|Hnot];
        [|destruct (String.eqb_spec (Profile.role p) "seller") as [Hseller|Hnot']].
      * repeat split; auto; try discriminate. eauto.
      * repeat split; auto; try discriminate. eauto.
      * repeat split; auto; discriminate.
  - eexists. eexists. split; [reflexivity|]. repeat split; try discriminate.
    + intros [u H]. discriminate H.
    + eexists. split; [reflexivity|]. discriminate.
  - eexists. eexists. split; [reflexivity|]. repeat split; try discriminate.
    + intros [u H]. discriminate H.
    + eexists. split; [reflexivity|]. apply CacheLaws.messageOr_nonempty. discriminate.
Qed.

(** X13.  A user who signs in while neither lookup of the service finds a
    profile is sent to the seller dashboard: the stand-in profile of
    [getProfile] has the role seller. *)
Theorem login_without_profile_lands_on_seller_dashboard (env : Supabase.Env)
    (userId : string)
    (lookups : nat -> Outcome (option Profile.t) * Outcome (option Profile.t))
    (clock : nat -> string * string)
    (rest : nat -> Outcome (option Profile.t) * Outcome (option string))
    (st : State) :
  profileLoading st = false ->
  (forall p, fst (lookups 0%nat) <> Resolved (Some p)) ->
  (forall p, snd (lookups 0%nat) <> Resolved (Some p)) ->
  exists r st',
    login 3 (SignInData (Some userId))
      (throughUserService env userId lookups clock rest) st = Some (r, st')
    /\ success r = true
    /\ redirect r = Some "/seller/dashboard"
    /\ profile st'
       = Some (UserService.fallbackProfile userId (fst (clock 0%nat)) (snd (clock 0%nat))).
Proof.
  intros Hidle Hdirect Hrpc. unfold login, loadUserProfile. cbn [profileLoading].
  rewrite Hidle. cbn [loadAttempts]. unfold attemptOnce, throughUserService.
  cbn [viaService]. unfold UserService.getProfile.
  destruct (Supabase.checkSupabaseConfig env);
    [destruct (fst (lookups 0%nat)) as [[p|]|e];
     [exfalso; now apply (Hdirect p)
     | destruct (snd (lookups 0%nat)) as [[p|]|e]; [exfalso; now apply (Hrpc p)| |]
     |] |];
    eexists; eexists; repeat split.
Qed.
End AuthLaws.

(** ** Clearing the stored session *)

Module StorageLaws.
Import Auth.

Lemma filter_filter {A : Type} (f g : A -> bool) (l : list A) :
  List.filter f (List.filter g l) = List.filter (fun x => (g x && f x)%bool) l.
Proof.
  induction l as [|x l IH]; simpl; [reflexivity|].
  destruct (g x); simpl; [destruct (f x)|]; now rewrite IH.
Qed.

Section Sweep.
Variable doomed : string -> bool.

Let sweep (remaining : list (string * string)) (key : string) :=
  if doomed key then removeItem key remaining else remaining.

Lemma sweep_all keys entries :
  fold_left sweep keys entries
  = List.filter (fun kv => negb (doomed (fst kv) && existsb (String.eqb (fst kv)) keys))
                entries.
Proof.
  revert entries. induction keys as [|key keys IH]; intros entries; simpl.
  - symmetry. apply RealtimeFacts.filter_all. intros x _. now rewrite andb_false_r.
  - rewrite IH. unfold sweep, removeItem. destruct (doomed key) eqn:E.
    + rewrite filter_filter. apply filter_ext. intros [k v]. simpl.
      destruct (String.eqb_spec k key) as [->|Hne]; simpl.
      * now rewrite E.
      * reflexivity.
    + apply filter_ext. intros [k v]. simpl.
      destruct (String.eqb_spec k key) as [->|Hne]; simpl; [|reflexivity].
      rewrite E. simpl. reflexivity.
Qed.

Lemma sweep_own_keys entries :
  fold_left sweep (map fst entries) entries
  = List.filter (fun kv => negb (doomed (fst kv))) entries.
Proof.
  rewrite sweep_all. apply filter_ext_in. intros [k v] Hin. simpl.
  assert (existsb (String.eqb k) (map fst entries) = true) as ->.
  { apply existsb_exists. exists k. split; [|apply String.eqb_refl].
    apply in_map_iff. now exists (k, v). }
  now rewrite andb_true_r.
Qed.

Lemma removeItem_doomed key entries :
  doomed key = true ->
  List.filter (fun kv => negb (doomed (fst kv))) (removeItem key entries)
  = List.filter (fun kv => negb (doomed (fst kv))) entries.
Proof.
  intros H. unfold removeItem. rewrite filter_filter. apply filter_ext.
  intros [k v]. simpl. destruct (String.eqb_spec k key) as [->|Hne]; simpl; [|reflexivity].
  now rewrite H.
Qed.
End Sweep.

(** X14.  [forceAuthClear] signs the provider out and sweeps the local
    storage: afterwards no key that includes "supabase" or "auth" is left,
    every other entry is kept, in its order, and the session storage is
    empty.  The two items it removes by name are among the swept keys, and
    clearing twice is the same as clearing once. *)
Theorem forceAuthClear_sweeps_storage (st : State)
    (entries session : list (string * string)) :
  let isAuthKey := fun key =>
    (JsString.includes "supabase" key || JsString.includes "auth" key)%bool in
  let kept := List.filter (fun kv => negb (isAuthKey (fst kv))) entries in
  forceAuthClear st (Some entries) (Some session)
  = ({| user := None; profile := None; isLoading := false; profileLoading := false |},
     Some kept, Some [])
  /\ (forall kv, In kv kept <-> In kv entries /\ isAuthKey (fst kv) = false)
  /\ clearLocalStorage (Some kept) = Some kept.
Proof.
  cbv zeta.
  set (doomed := fun key =>
         (JsString.includes "supabase" key || JsString.includes "auth" key)%bool).
  assert (forall l, clearLocalStorage (Some l)
                    = Some (List.filter (fun kv => negb (doomed (fst kv))) l)) as Hclear.
  { intros l. unfold clearLocalStorage. f_equal. fold doomed.
    rewrite (sweep_own_keys doomed).
    rewrite (removeItem_doomed doomed "sb-wfuoqbvnwsjjwuzcnfpw-auth-token") by reflexivity.
    now rewrite (removeItem_doomed doomed "supabase.auth.token") by reflexivity. }
  split; [|split].
  - unfold forceAuthClear. now rewrite Hclear.
  - intros kv. rewrite filter_In, negb_true_iff. reflexivity.
  - rewrite Hclear. f_equal. rewrite filter_filter. apply filter_ext. intros kv.
    now destruct (negb _).
Qed.
End StorageLaws.

(** ** Categories *)

Module CategoryLaws.
Import CategoryService.

(** X15.  [getCategoriesWithProductCounts] never rejects.  With the
    categories loaded it returns them all, in their order, each with its
    count; a count that fails or is null is 0 and does not touch the other
    categories.  Without configuration or without categories it returns the
    empty list. *)
Theorem category_counts_never_fail (env : Supabase.Env)
    (categories : Outcome (option (list Category)))
    (countProducts : string -> Outcome (option Z)) :
  exists result,
    getCategoriesWithProductCounts env categories countProducts = Resolved result
    /\ (Supabase.isSupabaseConfigured env = true ->
        forall rows, categories = Resolved (Some rows) ->
          map fst result = rows
          /\ map snd result
             = map (fun category =>
                      match countProducts (id category) with
                      | Resolved count => orZero count
                      | Rejected _ => 0
                      end) rows)
    /\ (Supabase.isSupabaseConfigured env = false -> result = [])
    /\ ((forall rows, categories <> Resolved (Some rows)) -> result = []).
Proof.
  unfold getCategoriesWithProductCounts, Supabase.checkSupabaseConfig.
  destruct (Supabase.isSupabaseConfigured env).
  - destruct categories as [[rows|]|e].
    + destruct rows as [|row rows].
      * exists []. split; [reflexivity|]. split; [|split; [discriminate | reflexivity]].
        intros _ rows' [= <-]. split; reflexivity.
      * eexists. split; [reflexivity|]. split; [|split; [discriminate|]].
        -- intros _ rows' [= <-]. rewrite !map_map. split.
           ++ rewrite <- (map_id (row :: rows)) at 2. apply map_ext.
              intros c. unfold withCount. now destruct (countProducts (id c)).
           ++ apply map_ext. intros c. unfold withCount.
              now destruct (countProducts (id c)).
        -- intros H. exfalso. now apply (H (row :: rows)).
    + exists []. split; [reflexivity|]. split; [|split; [discriminate | reflexivity]].
      intros _ rows H. discriminate H.
    + exists []. split; [reflexivity|]. split; [|split; [discriminate | reflexivity]].
      intros _ rows H. discriminate H.
  - exists []. split; [reflexivity|]. split; [discriminate|]. split; reflexivity.
Qed.

(** X16.  [getCategoriesWithSubcategories] keeps the categories as they
    came and gives each of them its own subcategories, none lost and none
    added, sorted by [sort_order] with a missing order counted as 0; a
    category without subcategories gets the empty list. *)
Theorem subcategories_sorted (env : Supabase.Env) (data : list Category) :
  Supabase.isSupabaseConfigured env = true ->
  exists result,
    getCategoriesWithSubcategories env (Resolved (Some data)) = Resolved result
    /\ Forall2
         (fun category sorted =>
            id sorted = id category /\ name sorted = name category
            /\ slug sorted = slug category /\ sort_order sorted = sort_order category
            /\ active sorted = active category
            /\ exists subs,
                 subcategories sorted = Some subs
                 /\ Permutation
                      (match subcategories category with Some l => l | None => [] end) subs
                 /\ StronglySorted
                      (fun a b => orZero (sub_sort_order a) <= orZero (sub_sort_order b))
                      subs)
         data result.
Proof.
  intros Hcfg. unfold getCategoriesWithSubcategories, Supabase.checkSupabaseConfig.
  rewrite Hcfg. eexists. split; [reflexivity|].
  induction data as [|c data IH]; simpl; constructor; [|exact IH].
  repeat split. unfold withSortedSubcategories. simpl.
  destruct (subcategories c) as [subs|].
  - eexists. split; [reflexivity|]. split.
    + apply (JsFacts.sort_perm (fun s => orZero (sub_sort_order s))).
    + apply (JsFacts.sort_sorted (fun s => orZero (sub_sort_order s))).
  - exists []. repeat split; constructor.
Qed.
End CategoryLaws.

(** ** The gallery and the quantity of the product page *)

Module GalleryLaws.
Import ProductGallery.

Lemma nextImage_mod imgs i :
  1 < Z.of_nat (List.length imgs) -> 0 <= i < Z.of_nat (List.length imgs) ->
  nextImage (Some imgs) i = (i + 1) mod Z.of_nat (List.length imgs).
Proof.
  intros Hn Hi. unfold nextImage.
  destruct (Z.gtb_spec (Z.of_nat (List.length imgs)) 1); [|lia].
  destruct (Z.eqb_spec i (Z.of_nat (List.length imgs) - 1)) as [->|Hne].
  - replace (Z.of_nat (List.length imgs) - 1 + 1) with (Z.of_nat (List.length imgs)) by lia.
    now rewrite Z.mod_same by lia.
  - rewrite Z.mod_small; lia.
Qed.

Lemma nextImage_iter imgs i k :
  1 < Z.of_nat (List.length imgs) -> 0 <= i < Z.of_nat (List.length imgs) ->
  Nat.iter k (nextImage (Some imgs)) i = (i + Z.of_nat k) mod Z.of_nat (List.length imgs).
Proof.
  intros Hn Hi. induction k as [|k IH].
  - simpl. rewrite Z.add_0_r, Z.mod_small; lia.
  - rewrite Nat.iter_succ, IH, nextImage_mod; [|exact Hn|apply Z.mod_pos_bound; lia].
    rewrite Z.add_mod_idemp_l by lia. f_equal. lia.
Qed.

(** X17.  The image index stays within the images: from an index in range
    [nextImage] and [prevImage] give an index in range, each undoes the
    other, and as many steps forward as there are images lead back to the
    start.  With no product, or fewer than two images, the index does not
    move. *)
Theorem image_index_cycles (images : list string) (i : Z) :
  0 <= i < Z.of_nat (List.length images) ->
  0 <= nextImage (Some images) i < Z.of_nat (List.length images)
  /\ 0 <= prevImage (Some images) i < Z.of_nat (List.length images)
  /\ prevImage (Some images) (nextImage (Some images) i) = i
  /\ nextImage (Some images) (prevImage (Some images) i) = i
  /\ Nat.iter (List.length images) (nextImage (Some images)) i = i
  /\ nextImage None i = i /\ prevImage None i = i.
Proof.
  intros Hi.
  destruct (Z.gtb_spec (Z.of_nat (List.length images)) 1) as [Hmany|Hfew].
  - assert (Hiter := nextImage_iter images i (List.length images) ltac:(lia) Hi).
    unfold nextImage, prevImage in *.
    destruct (Z.gtb_spec (Z.of_nat (List.length images)) 1); [|lia].
    repeat split;
      try (destruct (Z.eqb_spec i (Z.of_nat (List.length images) - 1));
           destruct (Z.eqb_spec i 0); lia);
      try (destruct (Z.eqb_spec i (Z.of_nat (List.length images) - 1));
           [destruct (Z.eqb_spec 0 0) | destruct (Z.eqb_spec (i + 1) 0)]; lia);
      try (destruct (Z.eqb_spec i 0);
           [destruct (Z.eqb_spec (Z.of_nat (List.length images) - 1)
                        (Z.of_nat (List.length images) - 1))
           | destruct (Z.eqb_spec (i - 1) (Z.of_nat (List.length images) - 1))]; lia).
    rewrite Hiter. rewrite <- (Z.mul_1_l (Z.of_nat (List.length images))) at 1.
    rewrite Z.mod_add by lia. apply Z.mod_small. lia.
  - assert (forall k, Nat.iter k (nextImage (Some images)) i = i) as Hstill.
    { induction k as [|k IH]; [reflexivity|]. rewrite Nat.iter_succ, IH.
      unfold nextImage. destruct (Z.gtb_spec (Z.of_nat (List.length images)) 1); [lia|].
      reflexivity. }
    rewrite Hstill. unfold nextImage, prevImage.
    destruct (Z.gtb_spec (Z.of_nat (List.length images)) 1); [lia|].
    repeat split; lia.
Qed.

(** X18.  With a product in stock the quantity never leaves the range from 1
    to the stock, whatever buttons are clicked, starting from the initial
    quantity 1. *)
Theorem quantity_within_stock (stock : Z) (clicks : list Click) :
  1 <= stock ->
  1 <= quantityAfter stock clicks <= stock.
Proof.
  intros Hstock. unfold quantityAfter.
  assert (forall q, 1 <= q <= stock -> 1 <= fold_left (click stock) clicks q <= stock) as H.
  { induction clicks as [|c clicks IH]; intros q Hq; [exact Hq|]. simpl. apply IH.
    destruct c; unfold click, decrement, increment; lia. }
  apply H. lia.
Qed.
End GalleryLaws.

(** ** Related products *)

Module RelatedLaws.
Import RelatedProducts.



Lemma NoDup_map_filter {A B : Type} (f : A -> B) (g : A -> bool) (l : list A) :
  NoDup (map f l) -> NoDup (map f (List.filter g l)).
Proof.
  induction l as [|x l IH]; simpl; intros H; [constructor|].
  inversion H as [|? ? Hx Hl]; subst.
  destruct (g x); simpl; [|auto]. constructor; [|auto].
  rewrite in_map_iff. intros (y & Hy & Hin). apply filter_In in Hin. apply Hx.
  rewrite in_map_iff. exists y. tauto.
Qed.



Section WithClock.
Variable getTime : string -> Z.





End WithClock.
End RelatedLaws.

(** ** The seller dashboard *)

Module DashboardLaws.
Import SellerDashboard.

Lemma filter_length_bound {A : Type} (f : A -> bool) (l : list A) :
  (List.length (List.filter f l) <= List.length l)%nat.
Proof.
  induction l as [|x l IH]; simpl; [lia|]. destruct (f x); simpl; lia.
Qed.

Section Stats.
Variable Num : Type.
Variable zero : Num.
Variable add : Num -> Num -> Num.
Variable orZero : Num -> Num.
Variable mockRating : Num.

Lemma revenue_from start (orders : list (Order Num)) :
  fold_left (fun sum order => if countsAsRevenue Num order
                              then add sum (orZero (total Num order)) else sum)
            orders start
  = fold_left (fun sum order => if countsAsRevenue Num order
                                then add sum (orZero (total Num order)) else sum)
              (List.filter (countsAsRevenue Num) orders) start.
Proof.
  revert start. induction orders as [|o orders IH]; intros start; simpl; [reflexivity|].
  destruct (countsAsRevenue Num o) eqn:E; simpl; [rewrite E|]; apply IH.
Qed.

(** X20.  The statistics of the dashboard are consistent: the active
    products are among the products and the pending orders among the orders,
    each recent list is the first five of its fetch, and orders that are not
    paid, shipped or delivered add nothing to the revenue.  A failed fetch of
    the products zeroes the product figures only; the order figures are those
    of the fetched orders. *)
Theorem dashboard_statistics_consistent
    (fetchedProducts : Outcome (option (list (Product Num))))
    (fetchedOrders : Outcome (option (list (Order Num)))) :
  let dashboard :=
    fetchDashboardData Num zero add orZero mockRating fetchedProducts fetchedOrders in
  (activeProducts Num (stats Num dashboard) <= totalProducts Num (stats Num dashboard))%nat
  /\ (pendingOrders Num (stats Num dashboard) <= totalOrders Num (stats Num dashboard))%nat
  /\ (List.length (recentProducts Num dashboard) <= 5)%nat
  /\ (List.length (recentOrders Num dashboard) <= 5)%nat
  /\ (forall orders,
        revenue Num zero add orZero orders
        = revenue Num zero add orZero (List.filter (countsAsRevenue Num) orders))
  /\ (forall e,
        let failed :=
          fetchDashboardData Num zero add orZero mockRating (Rejected e) fetchedOrders in
        totalProducts Num (stats Num failed) = 0%nat
        /\ activeProducts Num (stats Num failed) = 0%nat
        /\ recentProducts Num failed = []
        /\ totalOrders Num (stats Num failed) = totalOrders Num (stats Num dashboard)
        /\ pendingOrders Num (stats Num failed) = pendingOrders Num (stats Num dashboard)
        /\ totalRevenue Num (stats Num failed) = totalRevenue Num (stats Num dashboard)
        /\ recentOrders Num failed = recentOrders Num dashboard).
Proof.
  cbv zeta. unfold fetchDashboardData. cbn [stats activeProducts totalProducts
    pendingOrders totalOrders recentProducts recentOrders totalRevenue].
  split; [apply filter_length_bound|]. split; [apply filter_length_bound|].
  split; [apply firstn_le_length|]. split; [apply firstn_le_length|].
  split; [intros orders; apply revenue_from|].
  intros e. repeat split.
Qed.
End Stats.
End DashboardLaws.

(** ** The messages page *)

Module MessagesPageLaws.
Import MessagesPage ProductConversation.

Lemma includes_empty s : JsString.includes "" s = true.
Proof. destruct s; reflexivity. Qed.

Lemma lowerChar_idempotent c : JsString.lowerChar (JsString.lowerChar c) = JsString.lowerChar c.
Proof. destruct c as [[] [] [] [] [] [] [] []]; reflexivity. Qed.

Lemma toLowerCase_idempotent s :
  JsString.toLowerCase (JsString.toLowerCase s) = JsString.toLowerCase s.
Proof.
  induction s as [|c s IH]; simpl; [reflexivity|]. now rewrite lowerChar_idempotent, IH.
Qed.

(** X21.  The search of the conversation list: the empty term keeps every
    conversation, a term finds the same conversations as its lower-case form,
    and the result holds only conversations of the list, in their order, so
    a list without repeated pairs stays so. *)
Theorem conversation_search (searchTerm : string)
    (conversations : list ProductConversation.t) :
  filteredConversations "" conversations = conversations
  /\ filteredConversations (JsString.toLowerCase searchTerm) conversations
     = filteredConversations searchTerm conversations
  /\ (forall c, In c (filteredConversations searchTerm conversations) -> In c conversations)
  /\ (NoDup (map UseConversations.pairOf conversations) ->
      NoDup (map UseConversations.pairOf (filteredConversations searchTerm conversations))).
Proof.
  unfold filteredConversations. split; [|split; [|split]].
  - apply RealtimeFacts.filter_all. intros c _. simpl. now rewrite includes_empty.
  - now rewrite toLowerCase_idempotent.
  - intros c Hc. apply filter_In in Hc. tauto.
  - apply RelatedLaws.NoDup_map_filter.
Qed.

(** X22.  A conversation opened from the link of a product page: when the
    list of the handler has no conversation for the product and the user and
    the first message is sent, the selection is always the temporary
    conversation (title "Loading...", [is_buyer = true]); the conversation
    created by the message is never selected by this handler, because the
    second lookup reads the list of the first.  A selected existing
    conversation is one of the list, for that product and that user. *)
Theorem new_conversation_is_temporary (productId otherUserId user : option string)
    (isCreatingConversation : bool) (conversations : list ProductConversation.t)
    (sent : Outcome unit) (now : string) :
  let done := handleCreateNewConversation productId otherUserId user
                isCreatingConversation conversations sent now in
  (forall c, done <> SelectedCreated c)
  /\ (forall c, done = SelectedExisting c ->
        In c conversations
        /\ productId = Some (product_id c)
        /\ otherUserId = Some (Participant.id (other_participant c)))
  /\ (forall p o u,
        productId = Some p -> otherUserId = Some o -> user = Some u ->
        p <> "" -> o <> "" -> isCreatingConversation = false ->
        List.find (isThread p o) conversations = None ->
        done = match sent with
               | Resolved _ => SelectedTemporary (tempConversation p o now)
               | Rejected _ => Alerted
               end).
Proof.
  cbv zeta. unfold handleCreateNewConversation.
  split; [|split].
  - intros c. destruct productId as [p|]; [|discriminate].
    destruct otherUserId as [o|]; [|discriminate].
    destruct (negb _ || _ || _ || _)%bool; [discriminate|].
    destruct (List.find (isThread p o) conversations) eqn:E; [discriminate|].
    destruct sent; discriminate.
  - intros c. destruct productId as [p|]; [|discriminate].
    destruct otherUserId as [o|]; [|discriminate].
    destruct (negb _ || _ || _ || _)%bool; [discriminate|].
    destruct (List.find (isThread p o) conversations) as [found|] eqn:E.
    + intros [= <-]. apply find_some in E. destruct E as [Hin Hthread].
      unfold isThread in Hthread. apply andb_true_iff in Hthread.
      destruct Hthread as [Hp Ho]. apply String.eqb_eq in Hp, Ho. subst. auto.
    + destruct sent; discriminate.
  - intros p o u -> -> -> Hp Ho -> Hnone. rewrite Hnone. simpl.
    destruct p; [contradiction|]. destruct o; [contradiction|]. simpl.
    destruct sent; reflexivity.
Qed.
End MessagesPageLaws.

(** ** The configuration check *)

Module ServiceLaws.
Import Realtime.

(** X24.  Without configuration no call of the message service reaches the
    backend: the send and the read-marking reject with the configuration
    error and leave the backend as it is, whatever the backend would do; the
    two queries reject; the unread count is 0; both subscriptions are
    inert. *)
Theorem unconfigured_client_stays_local (S R Callback : Type)
    (rpc_send : string -> string -> string -> S -> Outcome R * S)
    (rpc_mark : string -> string -> S -> Outcome unit * S)
    (env : Supabase.Env) (backend : S) (c : Client Callback) :
  Supabase.isSupabaseConfigured env = false ->
  (forall productId recipientId content,
      MessageService.sendProductMessage rpc_send env productId recipientId content backend
      = (Rejected Error.NotConfigured, backend))
  /\ (forall productId senderId,
      MessageService.markMessagesAsRead rpc_mark env productId senderId backend
      = (Rejected Error.NotConfigured, backend))
  /\ (forall rpc, MessageServiceRead.getUserConversations env rpc
                  = Rejected Error.NotConfigured)
  /\ (forall rpc, MessageServiceRead.getProductMessages env rpc
                  = Rejected Error.NotConfigured)
  /\ (forall rpc, MessageServiceRead.getUnreadMessageCount env rpc = Resolved 0)
  /\ (forall userId callback, subscribeToUserMessages env userId callback c = (Inert, c))
  /\ (forall productId otherUserId callback,
      subscribeToProductMessages env productId otherUserId callback c = (Inert, c)).
Proof.
  intros Hcfg.
  unfold MessageService.sendProductMessage, MessageService.markMessagesAsRead,
    MessageServiceRead.getUserConversations, MessageServiceRead.getProductMessages,
    MessageServiceRead.getUnreadMessageCount, subscribeToUserMessages,
    subscribeToProductMessages, Supabase.checkSupabaseConfig.
  rewrite Hcfg. repeat split.
Qed.
End ServiceLaws.

(** ** The further properties at concrete inputs *)

Module Instances.
Import ProductMessage.

Ltac distinct := repeat constructor; simpl; intuition discriminate.



Lemma push_never_loses_messages_witness :
  In Examples.second
     (UseProductMessages.mergeNewMessage decimalTime [Examples.second] Examples.first).
Proof.
  destruct (CacheLaws.push_never_loses_messages decimalTime [Examples.second]
              Examples.first) as [Hkept _].
  apply Hkept. simpl. auto.
Defined.

Lemma send_leaves_cache_alone_witness :
  exists text,
    UseProductMessages.error
      (snd (fst (UseProductMessages.sendMessage
                   (Store.send_product_message Examples.assign "alice")
                   Examples.configured (Some "P42") (Some "alice") (Some "alice")
                   "Bonjour" UseProductMessages.initial [])))
    = Some text /\ text <> "".
Proof.
  destruct (CacheLaws.send_leaves_cache_alone Store.t Store.Message
              (Store.send_product_message Examples.assign "alice")
              Examples.configured (Some "P42") (Some "alice") (Some "alice")
              "Bonjour" UseProductMessages.initial []) as (_ & _ & _ & Hrejected).
  exact (Hrejected Error.InvalidSender eq_refl).
Defined.

Lemma latest_conversation_wins_witness :
  exists kept,
    In kept (UseConversations.conversations
               (UseConversations.fetchConversations decimalTime (Some "bob")
                  (Resolved [Examples.withAlice; Examples.withCarol; Examples.withAliceLater])
                  UseConversations.initial))
    /\ UseConversations.conversationKey kept
       = UseConversations.conversationKey Examples.withAlice
    /\ decimalTime (ProductConversation.last_message_at Examples.withAlice)
       <= decimalTime (ProductConversation.last_message_at kept).
Proof.
  apply ConversationLaws.latest_conversation_wins. simpl. auto.
Defined.

Lemma distinct_conversations_kept_in_order_witness :
  UseConversations.conversations
    (UseConversations.fetchConversations decimalTime (Some "bob")
       (Resolved [Examples.withCarol; Examples.withAlice]) UseConversations.initial)
  = [Examples.withCarol; Examples.withAlice].
Proof.
  apply (ConversationLaws.distinct_conversations_kept_in_order decimalTime "bob"
           [Examples.withCarol; Examples.withAlice] UseConversations.initial).
  distinct.
Defined.

Lemma failed_refetch_keeps_data_witness :
  UseProductMessages.messages
    (UseProductMessages.fetchMessages decimalTime (Some "P42") (Some "alice") (Some "bob")
       (Rejected (Error.Backend "fetch failed")) (Resolved tt)
       (UseProductMessages.run decimalTime [Examples.openThread [Examples.first]]
          UseProductMessages.initial))
  = [Examples.first].
Proof.
  destruct (ConversationLaws.failed_refetch_keeps_data decimalTime
              (Error.Backend "fetch failed")) as [_ Hthread].
  destruct (Hthread (Some "P42") (Some "alice") (Some "bob") (Resolved tt)
              (UseProductMessages.run decimalTime [Examples.openThread [Examples.first]]
                 UseProductMessages.initial) eq_refl eq_refl) as [Hkept _].
  exact Hkept.
Defined.

Lemma config_status_consistent_witness :
  SupabaseStatus.hasUrl (SupabaseStatus.getSupabaseConfigStatus Examples.configured) = true.
Proof.
  destruct (AuthLaws.config_status_consistent Examples.configured) as (_ & Hvalid & _).
  apply Hvalid. reflexivity.
Defined.

Lemma getProfile_always_answers_witness :
  (exists p,
    UserService.getProfile Examples.configured "alice"
      (Resolved (Some Examples.aliceProfile)) (Resolved None) "8" "9" = Resolved p
    /\ p = Examples.aliceProfile)
  /\ (exists p,
    UserService.getProfile Examples.configured "alice"
      (Resolved None) (Resolved (Some Examples.aliceProfile)) "8" "9" = Resolved p
    /\ p = Examples.aliceProfile)
  /\ (exists p,
    UserService.getProfile Examples.configured "alice"
      (Rejected (Error.Backend "permission denied for table users"))
      (Resolved (Some Examples.aliceProfile)) "8" "9" = Resolved p
    /\ p = UserService.fallbackProfile "alice" "8" "9").
Proof.
  split; [|split].
  - destruct (AuthLaws.getProfile_always_answers Examples.configured "alice"
                (Resolved (Some Examples.aliceProfile)) (Resolved None) "8" "9")
      as (p & Hp & _ & Hdirect & _).
    exists p. split; [exact Hp|]. exact (Hdirect eq_refl Examples.aliceProfile eq_refl).
  - destruct (AuthLaws.getProfile_always_answers Examples.configured "alice"
                (Resolved None) (Resolved (Some Examples.aliceProfile)) "8" "9")
      as (p & Hp & _ & _ & _ & Hrpc & _).
    exists p. split; [exact Hp|].
    exact (Hrpc eq_refl eq_refl Examples.aliceProfile eq_refl).
  - destruct (AuthLaws.getProfile_always_answers Examples.configured "alice"
                (Rejected (Error.Backend "permission denied for table users"))
                (Resolved (Some Examples.aliceProfile)) "8" "9")
      as (p & Hp & _ & _ & _ & _ & _ & _ & Hfailed & _).
    exists p. split; [exact Hp|].
    exact (Hfailed (Error.Backend "permission denied for table users") eq_refl).
Defined.


Lemma profile_found_at_first_attempt_witness :
  exists p st',
    UserService.getProfile Examples.configured "alice" (Resolved None) (Resolved None)
      "8" "9" = Resolved p
    /\ Auth.loadUserProfile 3 "alice"
         (Auth.throughUserService Examples.configured "alice" Examples.noRow
            Examples.browserClock Examples.noOtherRead) Examples.signedOut
       = Some ({| Auth.returned := Some p; Auth.attempts := 1 |}, st')
    /\ Auth.profile st' = Some p.
Proof.
  exact (AuthLaws.profile_found_at_first_attempt Examples.configured "alice"
           Examples.noRow Examples.browserClock Examples.noOtherRead
           Examples.signedOut eq_refl).
Defined.

Lemma login_result_shape_witness :
  exists r st',
    Auth.login 3 (Auth.SignInError (Error.Backend "")) Examples.nothingFound
      Examples.signedOut = Some (r, st')
    /\ exists text, Auth.error r = Some text /\ text <> "".
Proof.
  destruct (AuthLaws.login_result_shape (Auth.SignInError (Error.Backend ""))
              Examples.nothingFound Examples.signedOut 0)
    as (r & st' & Hlogin & _ & Hiff & Hfailed & _).
  exists r, st'. split; [exact Hlogin|].
  apply Hfailed. destruct (Auth.success r) eqn:E; [|reflexivity].
  destruct (proj1 Hiff eq_refl) as [userId H]. discriminate H.
Defined.

Lemma login_without_profile_lands_on_seller_dashboard_witness :
  exists r st',
    Auth.login 3 (Auth.SignInData (Some "alice"))
      (Auth.throughUserService Examples.configured "alice" Examples.noRow
         Examples.browserClock Examples.noOtherRead) Examples.signedOut
    = Some (r, st')
    /\ Auth.success r = true
    /\ Auth.redirect r = Some "/seller/dashboard"
    /\ Auth.profile st' = Some (UserService.fallbackProfile "alice" "8" "9").
Proof.
  apply (AuthLaws.login_without_profile_lands_on_seller_dashboard Examples.configured
           "alice" Examples.noRow Examples.browserClock Examples.noOtherRead
           Examples.signedOut eq_refl).
  - intros p H. discriminate H.
  - intros p H. discriminate H.
Defined.

Lemma forceAuthClear_sweeps_storage_witness :
  Auth.forceAuthClear Examples.signedOut (Some Examples.browserStorage) (Some [("tab", "1")])
  = ({| Auth.user := None; Auth.profile := None;
        Auth.isLoading := false; Auth.profileLoading := false |},
     Some [("cart", "[]"); ("theme", "dark")], Some [])
  /\ In ("theme", "dark") [("cart", "[]"); ("theme", "dark")].
Proof.
  destruct (StorageLaws.forceAuthClear_sweeps_storage Examples.signedOut
              Examples.browserStorage [("tab", "1")]) as (Hcleared & Hkept & _).
  split; [exact Hcleared|].
  apply (proj2 (Hkept ("theme", "dark"))). split; [|reflexivity]. simpl. auto.
Defined.

Lemma category_counts_never_fail_witness :
  exists result,
    CategoryService.getCategoriesWithProductCounts Examples.configured
      (Resolved (Some Examples.twoCategories)) Examples.countOf = Resolved result
    /\ map fst result = Examples.twoCategories
    /\ map snd result = [7; 0].
Proof.
  destruct (CategoryLaws.category_counts_never_fail Examples.configured
              (Resolved (Some Examples.twoCategories)) Examples.countOf)
    as (result & Hresult & Hloaded & _).
  exists result. split; [exact Hresult|].
  exact (Hloaded eq_refl Examples.twoCategories eq_refl).
Defined.

Lemma subcategories_sorted_witness :
  exists result,
    CategoryService.getCategoriesWithSubcategories Examples.configured
      (Resolved (Some Examples.twoCategories)) = Resolved result
    /\ map CategoryService.subcategories result
       = [Some [Examples.subcategory "s1" None; Examples.subcategory "s2" (Some 2)];
          Some []].
Proof.
  destruct (CategoryLaws.subcategories_sorted Examples.configured Examples.twoCategories
              eq_refl) as (result & Hresult & _).
  exists result. split; [exact Hresult|].
  injection Hresult as <-. reflexivity.
Defined.

Lemma image_index_cycles_witness :
  ProductGallery.prevImage (Some ["a.jpg"; "b.jpg"; "c.jpg"])
    (ProductGallery.nextImage (Some ["a.jpg"; "b.jpg"; "c.jpg"]) 2) = 2
  /\ Nat.iter 3 (ProductGallery.nextImage (Some ["a.jpg"; "b.jpg"; "c.jpg"])) 2 = 2.
Proof.
  destruct (GalleryLaws.image_index_cycles ["a.jpg"; "b.jpg"; "c.jpg"] 2)
    as (_ & _ & Hback & _ & Hround & _).
  - simpl. lia.
  - exact (conj Hback Hround).
Defined.

Lemma quantity_within_stock_witness :
  1 <= ProductGallery.quantityAfter 3
         [ProductGallery.Plus; ProductGallery.Plus; ProductGallery.Plus;
          ProductGallery.Plus; ProductGallery.Minus] <= 3.
Proof.
  apply GalleryLaws.quantity_within_stock. lia.
Defined.


Lemma dashboard_statistics_consistent_witness :
  SellerDashboard.revenue Z 0 Z.add (fun x => x)
    [Examples.order "o1" "paid" 10; Examples.order "o2" "pending" 5]
  = SellerDashboard.revenue Z 0 Z.add (fun x => x)
      (List.filter (SellerDashboard.countsAsRevenue Z)
         [Examples.order "o1" "paid" 10; Examples.order "o2" "pending" 5]).
Proof.
  destruct (DashboardLaws.dashboard_statistics_consistent Z 0 Z.add (fun x => x) 45
              (Resolved None)
              (Resolved (Some [Examples.order "o1" "paid" 10;
                               Examples.order "o2" "pending" 5])))
    as (_ & _ & _ & _ & Hrevenue & _).
  apply Hrevenue.
Defined.

Lemma conversation_search_witness :
  NoDup (map UseConversations.pairOf
           (MessagesPage.filteredConversations "ALICE"
              [Examples.withAlice; Examples.withCarol])).
Proof.
  destruct (MessagesPageLaws.conversation_search "ALICE"
              [Examples.withAlice; Examples.withCarol]) as (_ & _ & _ & Hpairs).
  apply Hpairs. distinct.
Defined.

Lemma new_conversation_is_temporary_witness :
  MessagesPage.handleCreateNewConversation (Some "P42") (Some "alice") (Some "bob")
    false [Examples.withCarol] (Resolved tt) "9"
  = MessagesPage.SelectedTemporary (MessagesPage.tempConversation "P42" "alice" "9").
Proof.
  destruct (MessagesPageLaws.new_conversation_is_temporary (Some "P42") (Some "alice")
              (Some "bob") false [Examples.withCarol] (Resolved tt) "9")
    as (_ & _ & Htemporary).
  apply (Htemporary "P42" "alice" "bob"); try reflexivity; intros H; discriminate H.
Defined.

Lemma unconfigured_client_stays_local_witness :
  MessageService.sendProductMessage (Store.send_product_message Examples.assign "alice")
    Examples.unconfigured "P42" "bob" "Bonjour" [Examples.stored]
  = (Rejected Error.NotConfigured, [Examples.stored]).
Proof.
  destruct (ServiceLaws.unconfigured_client_stays_local Store.t Store.Message string
              (Store.send_product_message Examples.assign "alice")
              (Store.mark_product_messages_as_read Examples.serverClock "alice")
              Examples.unconfigured [Examples.stored] Examples.freshClient eq_refl)
    as (Hsend & _).
  apply Hsend.
Defined.
End Instances.
